(** * AnonCreds / W3C credential utilities

    A shallow embedding of
    [packages/anoncreds/src/utils/w3cAnonCredsUtils.ts]:
    the credential-info projector ([getAnoncredsCredentialInfoFromRecord]),
    the tag extractor ([getAnonCredsTagsFromRecord]), the store-time
    normalisation ([getStoreCredentialOptions]) and the tag deriver
    ([getW3cRecordAnonCredsTags]).

    JavaScript objects used as string-keyed dictionaries are finite maps
    ([gmap string _]); a property that is present but holds [undefined] is a
    key bound to [JUndefined], which is not the same thing as a missing key.
    Code that can throw returns an [outcome]. *)

From stdpp Require Import gmap strings list fin_maps pretty.
From Stdlib Require Import ZArith Ascii.

Open Scope string_scope.

(** ** JavaScript values *)

(** The values that occur as tag values and as the id fields of the
    projected info: [undefined], [null], booleans, strings and the string
    arrays of the default tags. *)
Inductive JsValue : Type :=
  | JUndefined
  | JNull
  | JBool (b : bool)
  | JString (s : string)
  | JArray (l : list string).

(** A claim value ([AnonCredsClaimRecord]): a string, a number or a
    boolean.  Numbers are carried as integers; nothing here computes with
    them. *)
Inductive ClaimValue : Type :=
  | ClaimString (s : string)
  | ClaimNumber (n : Z)
  | ClaimBoolean (b : bool).

#[global] Instance JsValue_eq_dec : EqDecision JsValue.
Proof. solve_decision. Defined.

(** [!!v] of JavaScript: what an [if (!v)] test looks at. *)
Definition truthy (v : JsValue) : bool :=
  match v with
  | JUndefined | JNull => false
  | JBool b => b
  | JString s => negb (String.eqb s "")
  | JArray _ => true
  end.

(** [o.k] on an object: a missing property reads as [undefined]. *)
Definition prop (o : gmap string JsValue) (k : string) : JsValue :=
  default JUndefined (o !! k).

(** [v ?? null]. *)
Definition orNull (v : JsValue) : JsValue :=
  match v with
  | JUndefined | JNull => JNull
  | _ => v
  end.

(** An optional string field [s?: string] read as [s ?? null]. *)
Definition optOrNull (s : option string) : JsValue :=
  match s with
  | Some x => JString x
  | None => JNull
  end.

(** An optional string field placed in an object literal: the key is
    written either way, with [undefined] when the field is not given. *)
Definition optOrUndefined (s : option string) : JsValue :=
  match s with
  | Some x => JString x
  | None => JUndefined
  end.

(** ** Exceptions *)

Inductive Thrown : Type :=
  | CredoError (message : string)
  | TypeError.

Definition MalformedCredentialSubject : Thrown :=
  CredoError "Credential subject must be an object, not an array.".
Definition MissingTags : Thrown :=
  CredoError "AnonCreds tags not found on credential record.".
Definition MissingMetadata : Thrown :=
  CredoError "AnonCreds metadata not found on credential record.".

Inductive outcome (A : Type) : Type :=
  | Return (a : A)
  | Throw (e : Thrown).
Arguments Return {A} a.
Arguments Throw {A} e.

#[global] Instance outcome_ret : MRet outcome := fun _ a => Return a.
#[global] Instance outcome_bind : MBind outcome := fun _ _ f m =>
  match m with
  | Return a => f a
  | Throw e => Throw e
  end.

Definition returns {A} (m : outcome A) : Prop := ∃ a, m = Return a.

(** ** Records *)

Module AnonCredsCredentialValue.
Record t : Type := mk { raw : string; encoded : string }.
End AnonCredsCredentialValue.

(** The native credential payload.  The code reads [schema_id],
    [cred_def_id], [rev_reg_id] and [values] off it; [other_keys] lists the
    names of its further own properties (signature material and the like),
    whose contents this module never looks at but whose names a [for ... in]
    over the object enumerates. *)
Module AnonCredsCredential.
Record t : Type := mk {
  schema_id : string;
  cred_def_id : string;
  rev_reg_id : option string;
  values : gmap string AnonCredsCredentialValue.t;
  other_keys : list string
}.

(** The enumerable property names of the object. *)
Definition keys (c : t) : list string :=
  ("schema_id" :: "cred_def_id" ::
    (match rev_reg_id c with Some _ => ["rev_reg_id"] | None => [] end))
  ++ ("values" :: other_keys c).
End AnonCredsCredential.

Module AnonCredsCredentialRecord.
Record t : Type := mk {
  credential : AnonCredsCredential.t;
  credentialId : string;
  credentialRevocationId : option string;
  linkSecretId : string;
  methodName : string
}.
End AnonCredsCredentialRecord.

Module W3cAnoncredsCredentialMetadata.
Record t : Type := mk {
  credentialId : string;
  credentialRevocationId : option string;
  linkSecretId : string;
  methodName : string
}.
End W3cAnoncredsCredentialMetadata.

Module W3cCredentialSubject.
(** [claims] is [None] when the property is [undefined] or [null]. *)
Record t : Type := mk {
  id : option string;
  claims : option (gmap string ClaimValue)
}.
End W3cCredentialSubject.

(** [credentialSubject] is one subject or an array of them
    ([Array.isArray]). *)
Inductive CredentialSubject : Type :=
  | SingleSubject (s : W3cCredentialSubject.t)
  | SubjectArray (l : list W3cCredentialSubject.t).

Module W3cVerifiableCredential.
Record t : Type := mk {
  issuerId : string;
  credentialSubject : CredentialSubject
}.
End W3cVerifiableCredential.

(** The standards-based record: the credential document, the metadata side
    table and the tag mapping that [getTags()] returns. *)
Module W3cCredentialRecord.
Record t : Type := mk {
  credential : W3cVerifiableCredential.t;
  metadata : gmap string W3cAnoncredsCredentialMetadata.t;
  getTags : gmap string JsValue
}.
End W3cCredentialRecord.

Module AnonCredsCredentialInfo.
Record t : Type := mk {
  attributes : gmap string ClaimValue;
  credentialId : string;
  credentialDefinitionId : JsValue;
  schemaId : JsValue;
  credentialRevocationId : JsValue;
  revocationRegistryId : JsValue;
  methodName : string;
  linkSecretId : string
}.
End AnonCredsCredentialInfo.

(** [W3cCredentialRecord | AnonCredsCredentialRecord], told apart by
    [instanceof]. *)
Inductive CredentialRecord : Type :=
  | IsW3cCredentialRecord (r : W3cCredentialRecord.t)
  | IsAnonCredsCredentialRecord (r : AnonCredsCredentialRecord.t).

(** ** Tag keys *)

Definition requiredTagKeys : list string :=
  [ "anonCredsLinkSecretId"; "anonCredsMethodName"; "anonCredsSchemaId";
    "anonCredsSchemaName"; "anonCredsSchemaVersion";
    "anonCredsSchemaIssuerId"; "anonCredsCredentialDefinitionId" ].

Definition revocationTagKeys : list string :=
  [ "anonCredsRevocationRegistryId"; "anonCredsCredentialRevocationId" ].

Definition unqualifiedTagKeys : list string :=
  [ "anonCredsUnqualifiedIssuerId";
    "anonCredsUnqualifiedCredentialDefinitionId";
    "anonCredsUnqualifiedSchemaId"; "anonCredsUnqualifiedSchemaIssuerId";
    "anonCredsUnqualifiedRevocationRegistryId" ].

(** [`anonCredsAttr::${key}::value`] and [`anonCredsAttr::${key}::marker`]. *)
Definition attrValueKey (key : string) : string :=
  "anonCredsAttr::" +:+ key +:+ "::value".
Definition attrMarkerKey (key : string) : string :=
  "anonCredsAttr::" +:+ key +:+ "::marker".

(** [key.startsWith('anonCreds')]. *)
Definition startsWithAnonCreds (key : string) : bool :=
  String.prefix "anonCreds" key.

Module AnonCredsSchema.
Record t : Type := mk {
  issuerId : string;
  name : string;
  version : string;
  attrNames : list string
}.
End AnonCredsSchema.

(** ** Imported helpers

    [./indyIdentifiers], [./metadata] and [./credential] are imported by the
    module and are not part of it; what the module needs of them is
    gathered in one interface.  The helpers that rewrite an identifier, or
    an object holding identifiers, may throw, so they return an [outcome].
    The namespace reaches them as the caller gave it ([indyNamespace as
    string]), so it is an [option]. *)
Class Imports : Type := {
  (** Payload types the module only passes along. *)
  AnonCredsCredentialDefinition : Type;
  AnonCredsRevocationRegistryDefinition : Type;
  AnonCredsCredentialRequestMetadata : Type;
  AnonCredsCredentialPayload : Type;
  (** [./metadata]: the key of the side-table entry. *)
  W3cAnonCredsCredentialMetadataKey : string;
  (** [./indyIdentifiers]: recognisers. *)
  isIndyDid : string → bool;
  isUnqualifiedCredentialDefinitionId : string → bool;
  isUnqualifiedRevocationRegistryId : string → bool;
  isUnqualifiedDidIndySchema : AnonCredsSchema.t → bool;
  isUnqualifiedDidIndyCredentialDefinition :
    AnonCredsCredentialDefinition → bool;
  isUnqualifiedDidIndyRevocationRegistryDefinition :
    AnonCredsRevocationRegistryDefinition → bool;
  (** [./indyIdentifiers]: rewriters. *)
  getUnQualifiedDidIndyDid : string → outcome string;
  getQualifiedDidIndyDid : string → option string → outcome string;
  getQualifiedDidIndySchema :
    AnonCredsSchema.t → option string → outcome AnonCredsSchema.t;
  getQualifiedDidIndyCredentialDefinition :
    AnonCredsCredentialDefinition → option string →
    outcome AnonCredsCredentialDefinition;
  getQualifiedDidIndyRevocationRegistryDefinition :
    AnonCredsRevocationRegistryDefinition → option string →
    outcome AnonCredsRevocationRegistryDefinition;
  (** [./credential]: the raw and the encoded form of one claim value. *)
  rawValue : ClaimValue → string;
  encodeCredentialValue : ClaimValue → string
}.

Section Projector.
Context `{Imports}.

(** [record.metadata.get(W3cAnonCredsCredentialMetadataKey)]. *)
Definition anoncredsMetadata (record : W3cCredentialRecord.t)
  : option W3cAnoncredsCredentialMetadata.t :=
  W3cCredentialRecord.metadata record !! W3cAnonCredsCredentialMetadataKey.

(** The seven-fold [!tags.x || ...] test. *)
Definition requiredTagMissing (tags : gmap string JsValue) : bool :=
  negb (truthy (prop tags "anonCredsLinkSecretId")) ||
  negb (truthy (prop tags "anonCredsMethodName")) ||
  negb (truthy (prop tags "anonCredsSchemaId")) ||
  negb (truthy (prop tags "anonCredsSchemaName")) ||
  negb (truthy (prop tags "anonCredsSchemaVersion")) ||
  negb (truthy (prop tags "anonCredsSchemaIssuerId")) ||
  negb (truthy (prop tags "anonCredsCredentialDefinitionId")).

(** [None] is the [undefined] the function returns. *)
Definition getAnonCredsTagsFromRecord (record : W3cCredentialRecord.t)
  : option (gmap string JsValue) :=
  match anoncredsMetadata record with
  | None => None
  | Some _ =>
      let tags := W3cCredentialRecord.getTags record in
      if requiredTagMissing tags then None
      else Some (filter (λ kv, startsWithAnonCreds kv.1) tags)
  end.

Definition anoncredsCredentialInfoFromW3cRecord
    (w3cCredentialRecord : W3cCredentialRecord.t)
  : outcome AnonCredsCredentialInfo.t :=
  match W3cVerifiableCredential.credentialSubject
          (W3cCredentialRecord.credential w3cCredentialRecord) with
  | SubjectArray _ => Throw MalformedCredentialSubject
  | SingleSubject credentialSubject =>
      match getAnonCredsTagsFromRecord w3cCredentialRecord with
      | None => Throw MissingTags
      | Some anonCredsTags =>
          match anoncredsMetadata w3cCredentialRecord with
          | None => Throw MissingMetadata
          | Some anoncredsCredentialMetadata =>
              Return
                {| AnonCredsCredentialInfo.attributes :=
                     default ∅ (W3cCredentialSubject.claims credentialSubject);
                   AnonCredsCredentialInfo.credentialId :=
                     W3cAnoncredsCredentialMetadata.credentialId
                       anoncredsCredentialMetadata;
                   AnonCredsCredentialInfo.credentialDefinitionId :=
                     prop anonCredsTags "anonCredsCredentialDefinitionId";
                   AnonCredsCredentialInfo.schemaId :=
                     prop anonCredsTags "anonCredsSchemaId";
                   AnonCredsCredentialInfo.credentialRevocationId :=
                     optOrNull
                       (W3cAnoncredsCredentialMetadata.credentialRevocationId
                          anoncredsCredentialMetadata);
                   AnonCredsCredentialInfo.revocationRegistryId :=
                     orNull (prop anonCredsTags "anonCredsRevocationRegistryId");
                   AnonCredsCredentialInfo.methodName :=
                     W3cAnoncredsCredentialMetadata.methodName
                       anoncredsCredentialMetadata;
                   AnonCredsCredentialInfo.linkSecretId :=
                     W3cAnoncredsCredentialMetadata.linkSecretId
                       anoncredsCredentialMetadata |}
          end
      end
  end.

(** The [for (const attribute in credential)] loop, one key at a time:
    [values[attribute]] is [undefined] for a name the value table lacks,
    and reading [.raw] off [undefined] is a [TypeError]. *)
Fixpoint collectAttributes
    (values : gmap string AnonCredsCredentialValue.t)
    (keys : list string) (attributes : gmap string ClaimValue)
  : outcome (gmap string ClaimValue) :=
  match keys with
  | [] => Return attributes
  | attribute :: rest =>
      match values !! attribute with
      | None => Throw TypeError
      | Some v =>
          collectAttributes values rest
            (<[attribute := ClaimString (AnonCredsCredentialValue.raw v)]>
               attributes)
      end
  end.

Definition anoncredsCredentialInfoFromAnoncredsRecord
    (anonCredsCredentialRecord : AnonCredsCredentialRecord.t)
  : outcome AnonCredsCredentialInfo.t :=
  let credential :=
    AnonCredsCredentialRecord.credential anonCredsCredentialRecord in
  attributes ←
    collectAttributes (AnonCredsCredential.values credential)
      (AnonCredsCredential.keys credential) ∅;
  mret
    {| AnonCredsCredentialInfo.attributes := attributes;
       AnonCredsCredentialInfo.credentialDefinitionId :=
         JString (AnonCredsCredential.cred_def_id credential);
       AnonCredsCredentialInfo.credentialId :=
         AnonCredsCredentialRecord.credentialId anonCredsCredentialRecord;
       AnonCredsCredentialInfo.schemaId :=
         JString (AnonCredsCredential.schema_id credential);
       AnonCredsCredentialInfo.credentialRevocationId :=
         optOrNull
           (AnonCredsCredentialRecord.credentialRevocationId
              anonCredsCredentialRecord);
       AnonCredsCredentialInfo.revocationRegistryId :=
         optOrNull (AnonCredsCredential.rev_reg_id credential);
       AnonCredsCredentialInfo.methodName :=
         AnonCredsCredentialRecord.methodName anonCredsCredentialRecord;
       AnonCredsCredentialInfo.linkSecretId :=
         AnonCredsCredentialRecord.linkSecretId anonCredsCredentialRecord |}.

Definition getAnoncredsCredentialInfoFromRecord
    (credentialRecord : CredentialRecord)
  : outcome AnonCredsCredentialInfo.t :=
  match credentialRecord with
  | IsW3cCredentialRecord r => anoncredsCredentialInfoFromW3cRecord r
  | IsAnonCredsCredentialRecord r =>
      anoncredsCredentialInfoFromAnoncredsRecord r
  end.

End Projector.

(** ** Store-time normalisation *)

Module RevocationRegistry.
Record t `{Imports} : Type := mk {
  definition : AnonCredsRevocationRegistryDefinition;
  id : string
}.
End RevocationRegistry.

Module StoreCredentialOptions.
Record t `{Imports} : Type := mk {
  credentialId : option string;
  credentialRequestMetadata : AnonCredsCredentialRequestMetadata;
  credential : AnonCredsCredentialPayload;
  credentialDefinitionId : string;
  credentialDefinition : AnonCredsCredentialDefinition;
  schema : AnonCredsSchema.t;
  revocationRegistry : option RevocationRegistry.t
}.
End StoreCredentialOptions.

Section Store.
Context `{Imports}.

(** [cond(x) ? rewrite(x, indyNamespace) : x]. *)
Definition qualifyIf {A} (cond : A → bool)
    (rewrite : A → option string → outcome A)
    (indyNamespace : option string) (x : A) : outcome A :=
  if cond x then rewrite x indyNamespace else Return x.

(** [uuid] is what [utils.uuid()] yields on this call. *)
Definition getStoreCredentialOptions (uuid : string)
    (options : StoreCredentialOptions.t) (indyNamespace : option string)
  : outcome StoreCredentialOptions.t :=
  credentialDefinitionId ←
    qualifyIf isUnqualifiedCredentialDefinitionId getQualifiedDidIndyDid
      indyNamespace (StoreCredentialOptions.credentialDefinitionId options);
  credentialDefinition ←
    qualifyIf isUnqualifiedDidIndyCredentialDefinition
      getQualifiedDidIndyCredentialDefinition
      indyNamespace (StoreCredentialOptions.credentialDefinition options);
  schema ←
    qualifyIf isUnqualifiedDidIndySchema getQualifiedDidIndySchema
      indyNamespace (StoreCredentialOptions.schema options);
  revocationRegistry ←
    match StoreCredentialOptions.revocationRegistry options with
    | None => Return None
    | Some revocationRegistry =>
        definition ←
          qualifyIf isUnqualifiedDidIndyRevocationRegistryDefinition
            getQualifiedDidIndyRevocationRegistryDefinition
            indyNamespace (RevocationRegistry.definition revocationRegistry);
        id ←
          qualifyIf isUnqualifiedRevocationRegistryId getQualifiedDidIndyDid
            indyNamespace (RevocationRegistry.id revocationRegistry);
        Return
          (Some {| RevocationRegistry.definition := definition;
                   RevocationRegistry.id := id |})
    end;
  Return
    {| StoreCredentialOptions.credentialId := Some uuid;
       StoreCredentialOptions.credentialRequestMetadata :=
         StoreCredentialOptions.credentialRequestMetadata options;
       StoreCredentialOptions.credential :=
         StoreCredentialOptions.credential options;
       StoreCredentialOptions.credentialDefinitionId :=
         credentialDefinitionId;
       StoreCredentialOptions.credentialDefinition := credentialDefinition;
       StoreCredentialOptions.schema := schema;
       StoreCredentialOptions.revocationRegistry := revocationRegistry |}.

End Store.

(** ** Tag derivation *)

Module TagOptions.
Record t : Type := mk {
  w3cCredentialRecord : W3cCredentialRecord.t;
  schemaId : string;
  schema : AnonCredsSchema.t;
  credentialDefinitionId : string;
  revocationRegistryId : option string;
  credentialRevocationId : option string;
  linkSecretId : string;
  methodName : string
}.
End TagOptions.

(** An object literal: the properties are written left to right. *)
Definition objectLiteral (props : list (string * JsValue))
  : gmap string JsValue :=
  foldl (λ o kv, <[kv.1 := kv.2]> o) ∅ props.

(** [{ ...o, ...extra }] with [extra] either an object or [false]. *)
Definition spread (o : gmap string JsValue)
    (extra : option (list (string * JsValue))) : gmap string JsValue :=
  match extra with
  | Some props => foldl (λ o kv, <[kv.1 := kv.2]> o) o props
  | None => o
  end.

Section Tags.
Context `{Imports}.

(** Modelled from the spec: [mapAttributeRawValuesToAnonCredsCredentialValues]
    of [./credential] is not part of this module; the spec has every
    claim of the subject mapped through the raw-value encoder shared with
    issuance, one entry per claim. *)
Definition mapAttributeRawValuesToAnonCredsCredentialValues
    (record : gmap string ClaimValue)
  : gmap string AnonCredsCredentialValue.t :=
  (λ value,
     {| AnonCredsCredentialValue.raw := rawValue value;
        AnonCredsCredentialValue.encoded := encodeCredentialValue value |})
  <$> record.

(** [revocationRegistryId ? getUnQualifiedDidIndyDid(revocationRegistryId)
    : undefined]; the empty string is falsy. *)
Definition unqualifiedRevocationRegistryId
    (revocationRegistryId : option string) : outcome JsValue :=
  match revocationRegistryId with
  | Some r =>
      if truthy (JString r)
      then u ← getUnQualifiedDidIndyDid r; Return (JString u)
      else Return JUndefined
  | None => Return JUndefined
  end.

(** [isIndyDid(issuerId) && { ... }]. *)
Definition unqualifiedTags (issuerId : string) (options : TagOptions.t)
  : outcome (option (list (string * JsValue))) :=
  if isIndyDid issuerId then
    issuer ← getUnQualifiedDidIndyDid issuerId;
    credentialDefinition ←
      getUnQualifiedDidIndyDid (TagOptions.credentialDefinitionId options);
    schema ← getUnQualifiedDidIndyDid (TagOptions.schemaId options);
    schemaIssuer ←
      getUnQualifiedDidIndyDid
        (AnonCredsSchema.issuerId (TagOptions.schema options));
    revocationRegistry ←
      unqualifiedRevocationRegistryId
        (TagOptions.revocationRegistryId options);
    Return
      (Some
         [ ("anonCredsUnqualifiedIssuerId", JString issuer);
           ("anonCredsUnqualifiedCredentialDefinitionId",
             JString credentialDefinition);
           ("anonCredsUnqualifiedSchemaId", JString schema);
           ("anonCredsUnqualifiedSchemaIssuerId", JString schemaIssuer);
           ("anonCredsUnqualifiedRevocationRegistryId",
             revocationRegistry) ])
  else Return None.

Definition structuralTags (options : TagOptions.t)
  : gmap string JsValue :=
  objectLiteral
    [ ("anonCredsLinkSecretId", JString (TagOptions.linkSecretId options));
      ("anonCredsCredentialDefinitionId",
        JString (TagOptions.credentialDefinitionId options));
      ("anonCredsSchemaId", JString (TagOptions.schemaId options));
      ("anonCredsSchemaName",
        JString (AnonCredsSchema.name (TagOptions.schema options)));
      ("anonCredsSchemaIssuerId",
        JString (AnonCredsSchema.issuerId (TagOptions.schema options)));
      ("anonCredsSchemaVersion",
        JString (AnonCredsSchema.version (TagOptions.schema options)));
      ("anonCredsMethodName", JString (TagOptions.methodName options));
      ("anonCredsRevocationRegistryId",
        optOrUndefined (TagOptions.revocationRegistryId options));
      ("anonCredsCredentialRevocationId",
        optOrUndefined (TagOptions.credentialRevocationId options)) ].

(** The [for (const [key, value] of Object.entries(values))] loop. *)
Definition addAttributeTags (tags : gmap string JsValue)
    (values : gmap string AnonCredsCredentialValue.t)
  : gmap string JsValue :=
  foldl
    (λ tags kv,
       <[attrMarkerKey kv.1 := JBool true]>
         (<[attrValueKey kv.1 :=
              JString (AnonCredsCredentialValue.raw kv.2)]> tags))
    tags (map_to_list values).

Definition getW3cRecordAnonCredsTags (options : TagOptions.t)
  : outcome (gmap string JsValue) :=
  let credential :=
    W3cCredentialRecord.credential (TagOptions.w3cCredentialRecord options) in
  let issuerId := W3cVerifiableCredential.issuerId credential in
  unqualified ← unqualifiedTags issuerId options;
  let anonCredsCredentialRecordTags :=
    spread (structuralTags options) unqualified in
  match W3cVerifiableCredential.credentialSubject credential with
  | SubjectArray _ => Throw MalformedCredentialSubject
  | SingleSubject credentialSubject =>
      let values :=
        mapAttributeRawValuesToAnonCredsCredentialValues
          (default ∅ (W3cCredentialSubject.claims credentialSubject)) in
      Return (addAttributeTags anonCredsCredentialRecordTags values)
  end.

End Tags.

(** ** A stand-in for the imported helpers

    Used to run the definitions on concrete records.  An identifier counts
    as unqualified when it does not begin with [did:]; qualifying prepends
    [did:indy:<namespace>:] and unqualifying strips it again, throwing on an
    identifier that is not a [did:indy] one.  The definition objects are
    stood in for by their issuer id. *)
Module Sample.

Fixpoint afterColon (s : string) : string :=
  match s with
  | EmptyString => EmptyString
  | String c rest => if Ascii.eqb c ":"%char then rest else afterColon rest
  end.

Definition isIndy (s : string) : bool := String.prefix "did:indy:" s.

Definition isBare (s : string) : bool := negb (String.prefix "did:" s).

Definition unqualify (s : string) : outcome string :=
  if isIndy s
  then Return (afterColon (String.substring 9 (String.length s - 9) s))
  else Throw (CredoError "not a valid did:indy did").

(** A namespace that was not given is interpolated as [undefined]. *)
Definition qualify (s : string) (namespace : option string)
  : outcome string :=
  Return ("did:indy:" +:+ default "undefined" namespace +:+ ":" +:+ s).

Definition qualifySchema (s : AnonCredsSchema.t)
    (namespace : option string) : outcome AnonCredsSchema.t :=
  issuer ← qualify (AnonCredsSchema.issuerId s) namespace;
  Return
    {| AnonCredsSchema.issuerId := issuer;
       AnonCredsSchema.name := AnonCredsSchema.name s;
       AnonCredsSchema.version := AnonCredsSchema.version s;
       AnonCredsSchema.attrNames := AnonCredsSchema.attrNames s |}.

Definition toRaw (v : ClaimValue) : string :=
  match v with
  | ClaimString s => s
  | ClaimNumber n => pretty n
  | ClaimBoolean true => "true"
  | ClaimBoolean false => "false"
  end.

#[export] Instance imports : Imports := {|
  AnonCredsCredentialDefinition := string;
  AnonCredsRevocationRegistryDefinition := string;
  AnonCredsCredentialRequestMetadata := unit;
  AnonCredsCredentialPayload := unit;
  W3cAnonCredsCredentialMetadataKey := "_w3c/anonCredsMetadata";
  isIndyDid := isIndy;
  isUnqualifiedCredentialDefinitionId := isBare;
  isUnqualifiedRevocationRegistryId := isBare;
  isUnqualifiedDidIndySchema := λ s, isBare (AnonCredsSchema.issuerId s);
  isUnqualifiedDidIndyCredentialDefinition := isBare;
  isUnqualifiedDidIndyRevocationRegistryDefinition := isBare;
  getUnQualifiedDidIndyDid := unqualify;
  getQualifiedDidIndyDid := qualify;
  getQualifiedDidIndySchema := qualifySchema;
  getQualifiedDidIndyCredentialDefinition := qualify;
  getQualifiedDidIndyRevocationRegistryDefinition := qualify;
  rawValue := toRaw;
  encodeCredentialValue := toRaw
|}.

Definition issuer : string := "did:indy:sovrin:XYZ".
Definition degreeSchemaId : string :=
  "did:indy:sovrin:XYZ/anoncreds/v0/SCHEMA/degree/1.0".
Definition degreeCredDefId : string :=
  "did:indy:sovrin:XYZ/anoncreds/v0/CLAIM_DEF/7/default".
Definition degreeSchema : AnonCredsSchema.t :=
  {| AnonCredsSchema.issuerId := issuer;
     AnonCredsSchema.name := "degree";
     AnonCredsSchema.version := "1.0";
     AnonCredsSchema.attrNames := ["name"] |}.

(** *** Native records *)

(** An ordinary native credential with the single attribute
    [name = "Alice"]. *)
Definition degreeCredential : AnonCredsCredential.t :=
  {| AnonCredsCredential.schema_id := degreeSchemaId;
     AnonCredsCredential.cred_def_id := degreeCredDefId;
     AnonCredsCredential.rev_reg_id := None;
     AnonCredsCredential.values :=
       {[ "name" := AnonCredsCredentialValue.mk "Alice" "27034640024" ]};
     AnonCredsCredential.other_keys :=
       ["signature"; "signature_correctness_proof"] |}.

Definition degreeRecord : AnonCredsCredentialRecord.t :=
  {| AnonCredsCredentialRecord.credential := degreeCredential;
     AnonCredsCredentialRecord.credentialId := "native-1";
     AnonCredsCredentialRecord.credentialRevocationId := None;
     AnonCredsCredentialRecord.linkSecretId := "link-secret";
     AnonCredsCredentialRecord.methodName := "indy" |}.

(** A credential whose value table happens to have an entry for each of
    its own property names. *)
Definition coveredCredential : AnonCredsCredential.t :=
  {| AnonCredsCredential.schema_id := "s";
     AnonCredsCredential.cred_def_id := "c";
     AnonCredsCredential.rev_reg_id := None;
     AnonCredsCredential.values :=
       {[ "schema_id" := AnonCredsCredentialValue.mk "a" "1";
          "cred_def_id" := AnonCredsCredentialValue.mk "b" "2";
          "values" := AnonCredsCredentialValue.mk "c" "3" ]};
     AnonCredsCredential.other_keys := [] |}.

Definition coveredRecord : AnonCredsCredentialRecord.t :=
  {| AnonCredsCredentialRecord.credential := coveredCredential;
     AnonCredsCredentialRecord.credentialId := "native-2";
     AnonCredsCredentialRecord.credentialRevocationId := None;
     AnonCredsCredentialRecord.linkSecretId := "link-secret";
     AnonCredsCredentialRecord.methodName := "indy" |}.

(** *** Standards-based records *)

Definition aliceSubject : W3cCredentialSubject.t :=
  {| W3cCredentialSubject.id := None;
     W3cCredentialSubject.claims :=
       Some {[ "name" := ClaimString "Alice" ]} |}.

Definition degreeDocument : W3cVerifiableCredential.t :=
  {| W3cVerifiableCredential.issuerId := issuer;
     W3cVerifiableCredential.credentialSubject := SingleSubject aliceSubject |}.

Definition twoSubjectDocument : W3cVerifiableCredential.t :=
  {| W3cVerifiableCredential.issuerId := issuer;
     W3cVerifiableCredential.credentialSubject :=
       SubjectArray [aliceSubject; aliceSubject] |}.

Definition degreeMetadata : W3cAnoncredsCredentialMetadata.t :=
  {| W3cAnoncredsCredentialMetadata.credentialId := "w3c-1";
     W3cAnoncredsCredentialMetadata.credentialRevocationId := None;
     W3cAnoncredsCredentialMetadata.linkSecretId := "link-secret";
     W3cAnoncredsCredentialMetadata.methodName := "indy" |}.

(** The tags of a stored degree credential; [linkSecret] is the value of
    the link-secret tag. *)
Definition degreeTags (linkSecret : string) : gmap string JsValue :=
  objectLiteral
    [ ("issuerId", JString issuer);
      ("claimFormat", JString "ldp_vc");
      ("contexts", JArray ["https://www.w3.org/2018/credentials/v1"]);
      ("anonCredsLinkSecretId", JString linkSecret);
      ("anonCredsCredentialDefinitionId", JString degreeCredDefId);
      ("anonCredsSchemaId", JString degreeSchemaId);
      ("anonCredsSchemaName", JString "degree");
      ("anonCredsSchemaIssuerId", JString issuer);
      ("anonCredsSchemaVersion", JString "1.0");
      ("anonCredsMethodName", JString "indy");
      ("anonCredsAttr::name::value", JString "Alice");
      ("anonCredsAttr::name::marker", JBool true) ].

Definition w3cDegreeRecord : W3cCredentialRecord.t :=
  {| W3cCredentialRecord.credential := degreeDocument;
     W3cCredentialRecord.metadata :=
       {[ "_w3c/anonCredsMetadata" := degreeMetadata ]};
     W3cCredentialRecord.getTags := degreeTags "link-secret" |}.

(** The same record without its side-table entry. *)
Definition w3cNoMetadataRecord : W3cCredentialRecord.t :=
  {| W3cCredentialRecord.credential := degreeDocument;
     W3cCredentialRecord.metadata := ∅;
     W3cCredentialRecord.getTags := degreeTags "link-secret" |}.

(** The same record with an empty link-secret tag. *)
Definition w3cEmptyTagRecord : W3cCredentialRecord.t :=
  {| W3cCredentialRecord.credential := degreeDocument;
     W3cCredentialRecord.metadata :=
       {[ "_w3c/anonCredsMetadata" := degreeMetadata ]};
     W3cCredentialRecord.getTags := degreeTags "" |}.

(** An empty link-secret tag on a record whose subject is an array. *)
Definition w3cEmptyTagArrayRecord : W3cCredentialRecord.t :=
  {| W3cCredentialRecord.credential := twoSubjectDocument;
     W3cCredentialRecord.metadata :=
       {[ "_w3c/anonCredsMetadata" := degreeMetadata ]};
     W3cCredentialRecord.getTags := degreeTags "" |}.

Definition w3cTwoSubjectRecord : W3cCredentialRecord.t :=
  {| W3cCredentialRecord.credential := twoSubjectDocument;
     W3cCredentialRecord.metadata :=
       {[ "_w3c/anonCredsMetadata" := degreeMetadata ]};
     W3cCredentialRecord.getTags := degreeTags "link-secret" |}.

(** *** Derivation contexts *)

Definition tagOptionsFor (record : W3cCredentialRecord.t) : TagOptions.t :=
  {| TagOptions.w3cCredentialRecord := record;
     TagOptions.schemaId := degreeSchemaId;
     TagOptions.schema := degreeSchema;
     TagOptions.credentialDefinitionId := degreeCredDefId;
     TagOptions.revocationRegistryId := None;
     TagOptions.credentialRevocationId := None;
     TagOptions.linkSecretId := "link-secret";
     TagOptions.methodName := "indy" |}.

(** A context whose issuer is not an indy DID and which has no
    revocation registry. *)
Definition webDocument : W3cVerifiableCredential.t :=
  {| W3cVerifiableCredential.issuerId := "did:web:example.org";
     W3cVerifiableCredential.credentialSubject := SingleSubject aliceSubject |}.

Definition w3cWebRecord : W3cCredentialRecord.t :=
  {| W3cCredentialRecord.credential := webDocument;
     W3cCredentialRecord.metadata :=
       {[ "_w3c/anonCredsMetadata" := degreeMetadata ]};
     W3cCredentialRecord.getTags := ∅ |}.

Definition webOptions : TagOptions.t :=
  {| TagOptions.w3cCredentialRecord := w3cWebRecord;
     TagOptions.schemaId := "did:web:example.org/schemas/degree";
     TagOptions.schema :=
       {| AnonCredsSchema.issuerId := "did:web:example.org";
          AnonCredsSchema.name := "degree";
          AnonCredsSchema.version := "1.0";
          AnonCredsSchema.attrNames := ["name"] |};
     TagOptions.credentialDefinitionId :=
       "did:web:example.org/definitions/degree";
     TagOptions.revocationRegistryId := None;
     TagOptions.credentialRevocationId := None;
     TagOptions.linkSecretId := "link-secret";
     TagOptions.methodName := "web" |}.

(** *** Store options *)

Definition qualifiedStoreOptions : StoreCredentialOptions.t :=
  {| StoreCredentialOptions.credentialId := None;
     StoreCredentialOptions.credentialRequestMetadata := tt;
     StoreCredentialOptions.credential := tt;
     StoreCredentialOptions.credentialDefinitionId := degreeCredDefId;
     StoreCredentialOptions.credentialDefinition := issuer;
     StoreCredentialOptions.schema := degreeSchema;
     StoreCredentialOptions.revocationRegistry :=
       Some
         {| RevocationRegistry.definition := issuer;
            RevocationRegistry.id :=
              "did:indy:sovrin:XYZ/anoncreds/v0/REV_REG_DEF/7/default/1" |} |}.

End Sample.

(** * Vocabulary of the properties *)

Section Vocabulary.
Context `{Imports}.

Implicit Types (values : gmap string AnonCredsCredentialValue.t)
  (keys : list string) (tags : gmap string JsValue)
  (options : TagOptions.t) (r : W3cCredentialRecord.t).

(** Every enumerated name has an entry in the value table. *)
Definition covered values keys : Prop :=
  Forall (λ k, is_Some (values !! k)) keys.

#[global] Instance covered_dec values keys : Decision (covered values keys).
Proof. unfold covered. apply _. Defined.

(** The raw value of an entry of the value table, as an attribute of the
    projected info and as a tag value. *)
Definition rawAttribute (v : AnonCredsCredentialValue.t) : ClaimValue :=
  ClaimString (AnonCredsCredentialValue.raw v).

Definition rawOf (v : AnonCredsCredentialValue.t) : JsValue :=
  JString (AnonCredsCredentialValue.raw v).

(** What the extractor keeps: the [anonCreds]-prefixed part of the raw
    tag mapping. *)
Definition anonCredsPart tags : gmap string JsValue :=
  filter (λ kv, startsWithAnonCreds kv.1) tags.

Definition isAttrKey (k : string) : bool :=
  String.prefix "anonCredsAttr::" k.

(** The keys of the object literal, the spread ones included. *)
Definition fixedTagKeys : list string :=
  (requiredTagKeys ++ revocationTagKeys ++ unqualifiedTagKeys)%list.

(** One turn of the attribute loop. *)
Definition writePair tags (kv : string * AnonCredsCredentialValue.t)
  : gmap string JsValue :=
  <[attrMarkerKey kv.1 := JBool true]>
    (<[attrValueKey kv.1 := rawOf kv.2]> tags).

Definition issuerOf options : string :=
  W3cVerifiableCredential.issuerId
    (W3cCredentialRecord.credential (TagOptions.w3cCredentialRecord options)).

Definition subjectOf options : CredentialSubject :=
  W3cVerifiableCredential.credentialSubject
    (W3cCredentialRecord.credential (TagOptions.w3cCredentialRecord options)).

(** The claims the loop runs over: [credentialSubject.claims ?? {}]. *)
Definition claimsOf options : gmap string ClaimValue :=
  match subjectOf options with
  | SingleSubject s => default ∅ (W3cCredentialSubject.claims s)
  | SubjectArray _ => ∅
  end.

(** The revocation registry counts as present when its id is truthy. *)
Definition revocationRegistryPresent options : bool :=
  match TagOptions.revocationRegistryId options with
  | Some r => truthy (JString r)
  | None => false
  end.

(** The seven required tags hold the context's values as given. *)
Definition requiredTagsVerbatim options tags : Prop :=
  tags !! "anonCredsLinkSecretId"
  = Some (JString (TagOptions.linkSecretId options)) ∧
  tags !! "anonCredsCredentialDefinitionId"
  = Some (JString (TagOptions.credentialDefinitionId options)) ∧
  tags !! "anonCredsSchemaId"
  = Some (JString (TagOptions.schemaId options)) ∧
  tags !! "anonCredsSchemaName"
  = Some (JString (AnonCredsSchema.name (TagOptions.schema options))) ∧
  tags !! "anonCredsSchemaIssuerId"
  = Some (JString (AnonCredsSchema.issuerId (TagOptions.schema options))) ∧
  tags !! "anonCredsSchemaVersion"
  = Some (JString (AnonCredsSchema.version (TagOptions.schema options))) ∧
  tags !! "anonCredsMethodName"
  = Some (JString (TagOptions.methodName options)).

(** The identifiers the deriver mirrors are ones the unqualifying helper
    accepts: when the issuer id is an indy DID, the helper returns on the
    issuer id, the credential-definition id, the schema id, the schema
    issuer id and, when the revocation registry is present, on its id. *)
Definition mirrorableIds options : Prop :=
  isIndyDid (issuerOf options) = true →
  returns (getUnQualifiedDidIndyDid (issuerOf options)) ∧
  returns
    (getUnQualifiedDidIndyDid (TagOptions.credentialDefinitionId options)) ∧
  returns (getUnQualifiedDidIndyDid (TagOptions.schemaId options)) ∧
  returns
    (getUnQualifiedDidIndyDid
       (AnonCredsSchema.issuerId (TagOptions.schema options))) ∧
  ∀ registry,
    TagOptions.revocationRegistryId options = Some registry →
    truthy (JString registry) = true →
    returns (getUnQualifiedDidIndyDid registry).

(** A context the deriver accepts: the subject is a single object and the
    identifiers to be mirrored are acceptable. *)
Definition validContext options : Prop :=
  (∃ s, subjectOf options = SingleSubject s) ∧ mirrorableIds options.

(** [key] holds the unqualified form of [identifier]. *)
Definition mirrors tags (key identifier : string) : Prop :=
  ∃ u, getUnQualifiedDidIndyDid identifier = Return u ∧
       tags !! key = Some (JString u).

End Vocabulary.

Section StoreVocabulary.
Context `{Imports}.

Implicit Types (options : StoreCredentialOptions.t)
  (indyNamespace : option string).

(** None of the four identifier fields is recognised as unqualified. *)
Definition qualifiedIds options : Prop :=
  isUnqualifiedCredentialDefinitionId
    (StoreCredentialOptions.credentialDefinitionId options) = false ∧
  isUnqualifiedDidIndySchema (StoreCredentialOptions.schema options)
  = false ∧
  isUnqualifiedDidIndyCredentialDefinition
    (StoreCredentialOptions.credentialDefinition options) = false ∧
  ∀ revocationRegistry,
    StoreCredentialOptions.revocationRegistry options
    = Some revocationRegistry →
    isUnqualifiedRevocationRegistryId
      (RevocationRegistry.id revocationRegistry) = false.

(** The rewriting of the revocation-registry definition, the one field
    rewritten besides the four, does not throw. *)
Definition definitionNormalises indyNamespace options : Prop :=
  ∀ revocationRegistry,
    StoreCredentialOptions.revocationRegistry options
    = Some revocationRegistry →
    returns
      (qualifyIf isUnqualifiedDidIndyRevocationRegistryDefinition
         getQualifiedDidIndyRevocationRegistryDefinition indyNamespace
         (RevocationRegistry.definition revocationRegistry)).

(** The four identifier fields of [options'] are those of [options]. *)
Definition sameIdentifiers options options' : Prop :=
  StoreCredentialOptions.credentialDefinitionId options'
  = StoreCredentialOptions.credentialDefinitionId options ∧
  StoreCredentialOptions.schema options'
  = StoreCredentialOptions.schema options ∧
  StoreCredentialOptions.credentialDefinition options'
  = StoreCredentialOptions.credentialDefinition options ∧
  RevocationRegistry.id <$> StoreCredentialOptions.revocationRegistry options'
  = RevocationRegistry.id <$> StoreCredentialOptions.revocationRegistry options.

End StoreVocabulary.

(** * Vocabulary of the further properties *)

Section FurtherVocabulary.
Context `{Imports}.

(** The native record [r] with the further property names of its
    credential object replaced by [others]. *)
Definition withOtherKeys (r : AnonCredsCredentialRecord.t)
    (others : list string) : AnonCredsCredentialRecord.t :=
  let c := AnonCredsCredentialRecord.credential r in
  {| AnonCredsCredentialRecord.credential :=
       {| AnonCredsCredential.schema_id := AnonCredsCredential.schema_id c;
          AnonCredsCredential.cred_def_id := AnonCredsCredential.cred_def_id c;
          AnonCredsCredential.rev_reg_id := AnonCredsCredential.rev_reg_id c;
          AnonCredsCredential.values := AnonCredsCredential.values c;
          AnonCredsCredential.other_keys := others |};
     AnonCredsCredentialRecord.credentialId :=
       AnonCredsCredentialRecord.credentialId r;
     AnonCredsCredentialRecord.credentialRevocationId :=
       AnonCredsCredentialRecord.credentialRevocationId r;
     AnonCredsCredentialRecord.linkSecretId :=
       AnonCredsCredentialRecord.linkSecretId r;
     AnonCredsCredentialRecord.methodName :=
       AnonCredsCredentialRecord.methodName r |}.

(** The standards-based record [r] with [tags] as its tag mapping. *)
Definition withTags (r : W3cCredentialRecord.t)
    (tags : gmap string JsValue) : W3cCredentialRecord.t :=
  {| W3cCredentialRecord.credential := W3cCredentialRecord.credential r;
     W3cCredentialRecord.metadata := W3cCredentialRecord.metadata r;
     W3cCredentialRecord.getTags := tags |}.

(** The conditions under which the standards-based projection gets to its
    [return]. *)
Definition projectable (r : W3cCredentialRecord.t) : Prop :=
  (∃ s, W3cVerifiableCredential.credentialSubject
          (W3cCredentialRecord.credential r) = SingleSubject s) ∧
  is_Some (anoncredsMetadata r) ∧
  ∀ k, k ∈ requiredTagKeys →
       truthy (prop (W3cCredentialRecord.getTags r) k) = true.

(** What the standards-based projection returns for [r], read off the
    record's own tag mapping, its subject [s] and its side-table entry. *)
Definition w3cInfo (r : W3cCredentialRecord.t) (s : W3cCredentialSubject.t)
    (entry : W3cAnoncredsCredentialMetadata.t) : AnonCredsCredentialInfo.t :=
  let tags := W3cCredentialRecord.getTags r in
  {| AnonCredsCredentialInfo.attributes :=
       default ∅ (W3cCredentialSubject.claims s);
     AnonCredsCredentialInfo.credentialId :=
       W3cAnoncredsCredentialMetadata.credentialId entry;
     AnonCredsCredentialInfo.credentialDefinitionId :=
       prop tags "anonCredsCredentialDefinitionId";
     AnonCredsCredentialInfo.schemaId := prop tags "anonCredsSchemaId";
     AnonCredsCredentialInfo.credentialRevocationId :=
       optOrNull (W3cAnoncredsCredentialMetadata.credentialRevocationId entry);
     AnonCredsCredentialInfo.revocationRegistryId :=
       orNull (prop tags "anonCredsRevocationRegistryId");
     AnonCredsCredentialInfo.methodName :=
       W3cAnoncredsCredentialMetadata.methodName entry;
     AnonCredsCredentialInfo.linkSecretId :=
       W3cAnoncredsCredentialMetadata.linkSecretId entry |}.

(** The seven strings the deriver writes under the required keys are not
    empty. *)
Definition requiredStringsNonEmpty (options : TagOptions.t) : Prop :=
  TagOptions.linkSecretId options ≠ "" ∧
  TagOptions.methodName options ≠ "" ∧
  TagOptions.schemaId options ≠ "" ∧
  AnonCredsSchema.name (TagOptions.schema options) ≠ "" ∧
  AnonCredsSchema.version (TagOptions.schema options) ≠ "" ∧
  AnonCredsSchema.issuerId (TagOptions.schema options) ≠ "" ∧
  TagOptions.credentialDefinitionId options ≠ "".

(** The tag mapping of [r] is [tags] on the [anonCreds]-prefixed keys;
    what it holds under other keys is left open. *)
Definition carriesTags (r : W3cCredentialRecord.t)
    (tags : gmap string JsValue) : Prop :=
  ∀ k, startsWithAnonCreds k = true →
       W3cCredentialRecord.getTags r !! k = tags !! k.

(** What a record that carries the tags derived from [options] is
    projected to, given its side-table entry. *)
Definition derivedInfo (options : TagOptions.t)
    (entry : W3cAnoncredsCredentialMetadata.t) : AnonCredsCredentialInfo.t :=
  {| AnonCredsCredentialInfo.attributes := claimsOf options;
     AnonCredsCredentialInfo.credentialId :=
       W3cAnoncredsCredentialMetadata.credentialId entry;
     AnonCredsCredentialInfo.credentialDefinitionId :=
       JString (TagOptions.credentialDefinitionId options);
     AnonCredsCredentialInfo.schemaId := JString (TagOptions.schemaId options);
     AnonCredsCredentialInfo.credentialRevocationId :=
       optOrNull (W3cAnoncredsCredentialMetadata.credentialRevocationId entry);
     AnonCredsCredentialInfo.revocationRegistryId :=
       optOrNull (TagOptions.revocationRegistryId options);
     AnonCredsCredentialInfo.methodName :=
       W3cAnoncredsCredentialMetadata.methodName entry;
     AnonCredsCredentialInfo.linkSecretId :=
       W3cAnoncredsCredentialMetadata.linkSecretId entry |}.

(** The store options [options] with [uuid] as their credential id. *)
Definition withCredentialId (uuid : string)
    (options : StoreCredentialOptions.t) : StoreCredentialOptions.t :=
  {| StoreCredentialOptions.credentialId := Some uuid;
     StoreCredentialOptions.credentialRequestMetadata :=
       StoreCredentialOptions.credentialRequestMetadata options;
     StoreCredentialOptions.credential :=
       StoreCredentialOptions.credential options;
     StoreCredentialOptions.credentialDefinitionId :=
       StoreCredentialOptions.credentialDefinitionId options;
     StoreCredentialOptions.credentialDefinition :=
       StoreCredentialOptions.credentialDefinition options;
     StoreCredentialOptions.schema := StoreCredentialOptions.schema options;
     StoreCredentialOptions.revocationRegistry :=
       StoreCredentialOptions.revocationRegistry options |}.

(** The definition of the revocation registry, when there is one, is not
    recognised as unqualified either. *)
Definition qualifiedDefinition (options : StoreCredentialOptions.t) : Prop :=
  ∀ revocationRegistry,
    StoreCredentialOptions.revocationRegistry options
    = Some revocationRegistry →
    isUnqualifiedDidIndyRevocationRegistryDefinition
      (RevocationRegistry.definition revocationRegistry) = false.

(** [x'] is what the conditional rewrite makes of [x]. *)
Definition rewrittenTo {A} (cond : A → bool)
    (rewrite : A → option string → outcome A)
    (indyNamespace : option string) (x x' : A) : Prop :=
  if cond x then rewrite x indyNamespace = Return x' else x' = x.

(** The five conditional rewrites of the normalisation all return. *)
Definition rewritesReturn (indyNamespace : option string)
    (options : StoreCredentialOptions.t) : Prop :=
  returns
    (qualifyIf isUnqualifiedCredentialDefinitionId getQualifiedDidIndyDid
       indyNamespace (StoreCredentialOptions.credentialDefinitionId options)) ∧
  returns
    (qualifyIf isUnqualifiedDidIndyCredentialDefinition
       getQualifiedDidIndyCredentialDefinition
       indyNamespace (StoreCredentialOptions.credentialDefinition options)) ∧
  returns
    (qualifyIf isUnqualifiedDidIndySchema getQualifiedDidIndySchema
       indyNamespace (StoreCredentialOptions.schema options)) ∧
  ∀ revocationRegistry,
    StoreCredentialOptions.revocationRegistry options
    = Some revocationRegistry →
    returns
      (qualifyIf isUnqualifiedDidIndyRevocationRegistryDefinition
         getQualifiedDidIndyRevocationRegistryDefinition indyNamespace
         (RevocationRegistry.definition revocationRegistry)) ∧
    returns
      (qualifyIf isUnqualifiedRevocationRegistryId getQualifiedDidIndyDid
         indyNamespace (RevocationRegistry.id revocationRegistry)).

(** The identifiers the guarded spread unqualifies, in the order in which
    it does: the issuer id, the credential-definition id, the schema id, the
    schema issuer id and, when it is truthy, the revocation-registry id. *)
Definition mirroredIds (options : TagOptions.t) : list string :=
  ([ issuerOf options;
     TagOptions.credentialDefinitionId options;
     TagOptions.schemaId options;
     AnonCredsSchema.issuerId (TagOptions.schema options) ]
   ++ match TagOptions.revocationRegistryId options with
      | Some registry => if truthy (JString registry) then [registry] else []
      | None => []
      end)%list.

(** [e] is what the unqualifying helper throws on the first of the
    mirrored identifiers that it rejects. *)
Definition firstUnqualifyError (options : TagOptions.t) (e : Thrown) : Prop :=
  ∃ before identifier after,
    mirroredIds options = (before ++ identifier :: after)%list ∧
    Forall (λ i, returns (getUnQualifiedDidIndyDid i)) before ∧
    getUnQualifiedDidIndyDid identifier = Throw e.

End FurtherVocabulary.

(** Further sample records. *)
Module Stored.

(** The tags the deriver gives for [options], nothing when it throws. *)
Definition derivedTags `{Imports} (options : TagOptions.t)
  : gmap string JsValue :=
  match getW3cRecordAnonCredsTags options with
  | Return tags => tags
  | Throw _ => ∅
  end.

#[local] Existing Instance Sample.imports.

(** The degree credential as stored: its tag mapping is the derived tags
    together with tags of other indexing concerns. *)
Definition degreeRecord : W3cCredentialRecord.t :=
  {| W3cCredentialRecord.credential := Sample.degreeDocument;
     W3cCredentialRecord.metadata :=
       {[ "_w3c/anonCredsMetadata" := Sample.degreeMetadata ]};
     W3cCredentialRecord.getTags :=
       <["issuerId" := JString Sample.issuer]>
         (<["claimFormat" := JString "ldp_vc"]>
            (derivedTags (Sample.tagOptionsFor Sample.w3cDegreeRecord))) |}.

(** Store options whose credential-definition id is a legacy one. *)
Definition legacyStoreOptions : StoreCredentialOptions.t :=
  {| StoreCredentialOptions.credentialId := Some "given-by-caller";
     StoreCredentialOptions.credentialRequestMetadata := tt;
     StoreCredentialOptions.credential := tt;
     StoreCredentialOptions.credentialDefinitionId := "XYZ:3:CL:7:default";
     StoreCredentialOptions.credentialDefinition := Sample.issuer;
     StoreCredentialOptions.schema := Sample.degreeSchema;
     StoreCredentialOptions.revocationRegistry := None |}.

(** A context with an indy issuer, a credential-definition id of another
    method and a subject that is an array. *)
Definition mixedOptions : TagOptions.t :=
  {| TagOptions.w3cCredentialRecord := Sample.w3cTwoSubjectRecord;
     TagOptions.schemaId := Sample.degreeSchemaId;
     TagOptions.schema := Sample.degreeSchema;
     TagOptions.credentialDefinitionId :=
       "did:web:example.org/definitions/degree";
     TagOptions.revocationRegistryId := None;
     TagOptions.credentialRevocationId := None;
     TagOptions.linkSecretId := "link-secret";
     TagOptions.methodName := "indy" |}.

End Stored.

(** ** A second stand-in for the imported helpers

    As [Sample], but the qualifying helpers insist on a namespace: they
    throw when it is left out. *)
Module Strict.

Definition qualify (s : string) (namespace : option string)
  : outcome string :=
  match namespace with
  | Some ns => Return ("did:indy:" +:+ ns +:+ ":" +:+ s)
  | None => Throw (CredoError "Missing required indy namespace")
  end.

Definition qualifySchema (s : AnonCredsSchema.t)
    (namespace : option string) : outcome AnonCredsSchema.t :=
  issuer ← qualify (AnonCredsSchema.issuerId s) namespace;
  Return
    {| AnonCredsSchema.issuerId := issuer;
       AnonCredsSchema.name := AnonCredsSchema.name s;
       AnonCredsSchema.version := AnonCredsSchema.version s;
       AnonCredsSchema.attrNames := AnonCredsSchema.attrNames s |}.

#[export] Instance imports : Imports := {|
  AnonCredsCredentialDefinition := string;
  AnonCredsRevocationRegistryDefinition := string;
  AnonCredsCredentialRequestMetadata := unit;
  AnonCredsCredentialPayload := unit;
  W3cAnonCredsCredentialMetadataKey := "_w3c/anonCredsMetadata";
  isIndyDid := Sample.isIndy;
  isUnqualifiedCredentialDefinitionId := Sample.isBare;
  isUnqualifiedRevocationRegistryId := Sample.isBare;
  isUnqualifiedDidIndySchema :=
    λ s, Sample.isBare (AnonCredsSchema.issuerId s);
  isUnqualifiedDidIndyCredentialDefinition := Sample.isBare;
  isUnqualifiedDidIndyRevocationRegistryDefinition := Sample.isBare;
  getUnQualifiedDidIndyDid := Sample.unqualify;
  getQualifiedDidIndyDid := qualify;
  getQualifiedDidIndySchema := qualifySchema;
  getQualifiedDidIndyCredentialDefinition := qualify;
  getQualifiedDidIndyRevocationRegistryDefinition := qualify;
  rawValue := Sample.toRaw;
  encodeCredentialValue := Sample.toRaw
|}.

(** Store options whose four listed identifier fields are qualified, while
    the definition of the revocation registry is a legacy one. *)
Definition legacyDefinitionOptions : StoreCredentialOptions.t :=
  {| StoreCredentialOptions.credentialId := None;
     StoreCredentialOptions.credentialRequestMetadata := tt;
     StoreCredentialOptions.credential := tt;
     StoreCredentialOptions.credentialDefinitionId := Sample.degreeCredDefId;
     StoreCredentialOptions.credentialDefinition := Sample.issuer;
     StoreCredentialOptions.schema := Sample.degreeSchema;
     StoreCredentialOptions.revocationRegistry :=
       Some
         {| RevocationRegistry.definition := "XYZ";
            RevocationRegistry.id :=
              "did:indy:sovrin:XYZ/anoncreds/v0/REV_REG_DEF/7/default/1" |} |}.

End Strict.

(** * Properties *)

(** ** The native projection *)

Section NativeProjection.

Implicit Types (values : gmap string AnonCredsCredentialValue.t)
  (keys : list string) (attributes : gmap string ClaimValue).

Lemma collectAttributes_covered values keys attributes :
  covered values keys →
  ∃ result,
    collectAttributes values keys attributes = Return result ∧
    ∀ k, result !! k =
         if decide (k ∈ keys) then rawAttribute <$> values !! k
         else attributes !! k.
Proof.
  revert attributes.
  induction keys as [|attribute rest IH]; intros attributes Hcov.
  - exists attributes. split; [done|]. intros k.
    destruct (decide (k ∈ [])) as [Hin|]; [|done].
    by apply elem_of_nil in Hin.
  - apply Forall_cons in Hcov as [[v Hv] Hrest]. simpl. rewrite Hv.
    destruct (IH (<[attribute := rawAttribute v]> attributes) Hrest)
      as (result & Hrun & Hlook).
    exists result. split; [exact Hrun|]. intros k. rewrite Hlook.
    destruct (decide (k ∈ rest)) as [Hin|Hnin].
    + rewrite decide_True; [done|]. by apply elem_of_cons; right.
    + destruct (decide (k = attribute)) as [->|Hne].
      * rewrite lookup_insert_eq, Hv.
        rewrite decide_True; [done|]. by apply elem_of_cons; left.
      * rewrite lookup_insert_ne by done.
        rewrite decide_False; [done|].
        intros [?|?]%elem_of_cons; done.
Qed.

Lemma collectAttributes_uncovered values keys attributes :
  ¬ covered values keys →
  collectAttributes values keys attributes = Throw TypeError.
Proof.
  revert attributes.
  induction keys as [|attribute rest IH]; intros attributes Hcov.
  - exfalso. apply Hcov. constructor.
  - simpl. destruct (values !! attribute) as [v|] eqn:Hv; [|done].
    apply IH. intros Hrest. apply Hcov. constructor; [by eexists|done].
Qed.

End NativeProjection.

(** C9.  The native projection returns exactly when every enumerable key of
    the record's credential object has an entry in the value table; then
    the attributes hold, under each of those keys, the raw value of its
    entry.  When some key has no entry the [.raw] read faults: the
    projection ends in a [TypeError], not in a value and not in a
    [CredoError]. *)
Theorem native_projection_total_iff_covered
    (r : AnonCredsCredentialRecord.t) :
  let credential := AnonCredsCredentialRecord.credential r in
  let values := AnonCredsCredential.values credential in
  let keys := AnonCredsCredential.keys credential in
  (covered values keys →
     ∃ info,
       anoncredsCredentialInfoFromAnoncredsRecord r = Return info ∧
       dom (AnonCredsCredentialInfo.attributes info) = list_to_set keys ∧
       ∀ k, k ∈ keys →
            AnonCredsCredentialInfo.attributes info !! k
            = rawAttribute <$> values !! k) ∧
  (¬ covered values keys →
     anoncredsCredentialInfoFromAnoncredsRecord r = Throw TypeError).
Proof.
  intros credential values keys. split.
  - intros Hcov.
    destruct (collectAttributes_covered values keys ∅ Hcov)
      as (attributes & Hrun & Hlook).
    unfold anoncredsCredentialInfoFromAnoncredsRecord.
    fold credential. fold values. fold keys. rewrite Hrun.
    eexists. split; [reflexivity|].
    cbn [AnonCredsCredentialInfo.attributes]. split.
    + apply set_eq. intros k.
      rewrite elem_of_dom, elem_of_list_to_set, Hlook.
      destruct (decide (k ∈ keys)) as [Hin|Hnin].
      * split; [done|]. intros _.
        unfold covered in Hcov. rewrite Forall_forall in Hcov.
        destruct (Hcov k Hin) as [v ->]. by eexists.
      * rewrite lookup_empty. split; [by intros [? ?]|done].
    + intros k Hin. rewrite Hlook. by rewrite decide_True.
  - intros Hcov.
    unfold anoncredsCredentialInfoFromAnoncredsRecord.
    fold credential. fold values. fold keys.
    by rewrite (collectAttributes_uncovered values keys ∅ Hcov).
Qed.

Lemma native_projection_total_iff_covered_witness :
  returns (anoncredsCredentialInfoFromAnoncredsRecord Sample.coveredRecord) ∧
  anoncredsCredentialInfoFromAnoncredsRecord Sample.degreeRecord
  = Throw TypeError.
Proof.
  split.
  - destruct (native_projection_total_iff_covered Sample.coveredRecord)
      as [Hreturns _].
    destruct Hreturns as (info & Hinfo & _).
    + repeat constructor; vm_compute; eauto.
    + by exists info.
  - destruct (native_projection_total_iff_covered Sample.degreeRecord)
      as [_ Hfaults].
    apply Hfaults. intros Hcov. apply Forall_cons in Hcov as [[v Hv] _].
    vm_compute in Hv. discriminate.
Defined.

(** Whatever the record, a returned attribute mapping has the credential
    object's own property names as its keys, [values] among them. *)
Lemma native_attributes_keyed_by_object_keys
    (r : AnonCredsCredentialRecord.t) info :
  anoncredsCredentialInfoFromAnoncredsRecord r = Return info →
  "values" ∈ dom (AnonCredsCredentialInfo.attributes info).
Proof.
  unfold anoncredsCredentialInfoFromAnoncredsRecord.
  set (credential := AnonCredsCredentialRecord.credential r).
  set (values := AnonCredsCredential.values credential).
  set (keys := AnonCredsCredential.keys credential).
  intros Hrun.
  assert ("values" ∈ keys) as Hin.
  { unfold keys, AnonCredsCredential.keys.
    apply elem_of_app. right. by apply elem_of_cons; left. }
  destruct (decide (covered values keys)) as [Hcov|Hcov].
  - destruct (collectAttributes_covered values keys ∅ Hcov)
      as (attributes & Hloop & Hlook).
    rewrite Hloop in Hrun. injection Hrun as <-.
    cbn [AnonCredsCredentialInfo.attributes].
    apply elem_of_dom. rewrite Hlook, decide_True by done.
    unfold covered in Hcov. rewrite Forall_forall in Hcov.
    destruct (Hcov "values" Hin) as [v ->]. by eexists.
  - rewrite (collectAttributes_uncovered values keys ∅ Hcov) in Hrun.
    discriminate.
Qed.

(** ** The tag extractor and the standards-based projection *)

Section W3cProjection.
Context `{Imports}.

Implicit Types (r : W3cCredentialRecord.t) (tags : gmap string JsValue).

(** The seven-fold test is a search through [requiredTagKeys] for a tag
    that is not truthy. *)
Lemma requiredTagMissing_existsb tags :
  requiredTagMissing tags
  = existsb (λ k, negb (truthy (prop tags k))) requiredTagKeys.
Proof.
  unfold requiredTagMissing, requiredTagKeys. simpl.
  rewrite orb_false_r, !orb_assoc. reflexivity.
Qed.

Lemma requiredTagMissing_true tags :
  requiredTagMissing tags = true ↔
  ∃ k, k ∈ requiredTagKeys ∧ truthy (prop tags k) = false.
Proof.
  rewrite requiredTagMissing_existsb, existsb_exists.
  split; intros (k & Hin & Hk); exists k.
  - apply list_elem_of_In in Hin. split; [done|].
    by apply negb_true_iff.
  - apply list_elem_of_In in Hin. split; [done|].
    by apply negb_true_iff.
Qed.

Lemma requiredTagMissing_false tags :
  requiredTagMissing tags = false ↔
  ∀ k, k ∈ requiredTagKeys → truthy (prop tags k) = true.
Proof.
  split.
  - intros Hnone k Hin.
    destruct (truthy (prop tags k)) eqn:Hk; [done|].
    assert (requiredTagMissing tags = true) as Habs
      by (apply requiredTagMissing_true; eauto).
    congruence.
  - intros Hall.
    destruct (requiredTagMissing tags) eqn:Hm; [|done].
    apply requiredTagMissing_true in Hm as (k & Hin & Hk).
    rewrite (Hall k Hin) in Hk. discriminate.
Qed.

(** A key that is not there reads as [undefined], which is not truthy. *)
Lemma absent_key_not_truthy tags k :
  tags !! k = None → truthy (prop tags k) = false.
Proof. unfold prop. by intros ->. Qed.

Lemma empty_string_not_truthy tags k :
  tags !! k = Some (JString "") → truthy (prop tags k) = false.
Proof. unfold prop. by intros ->. Qed.

Lemma anonCredsPart_lookup tags k v :
  anonCredsPart tags !! k = Some v ↔
  tags !! k = Some v ∧ startsWithAnonCreds k = true.
Proof.
  unfold anonCredsPart. rewrite map_lookup_filter_Some. simpl.
  split; intros [? Hp]; (split; [done|]).
  - by apply Is_true_true.
  - by apply Is_true_true.
Qed.

Lemma extractor_without_metadata r :
  anoncredsMetadata r = None → getAnonCredsTagsFromRecord r = None.
Proof. unfold getAnonCredsTagsFromRecord. by intros ->. Qed.

Lemma extractor_with_untruthy_tag r k :
  k ∈ requiredTagKeys →
  truthy (prop (W3cCredentialRecord.getTags r) k) = false →
  getAnonCredsTagsFromRecord r = None.
Proof.
  intros Hin Hk. unfold getAnonCredsTagsFromRecord.
  destruct (anoncredsMetadata r); [|done].
  assert (requiredTagMissing (W3cCredentialRecord.getTags r) = true) as ->
    by (apply requiredTagMissing_true; eauto).
  done.
Qed.

Lemma extractor_with_all_truthy r :
  is_Some (anoncredsMetadata r) →
  (∀ k, k ∈ requiredTagKeys →
        truthy (prop (W3cCredentialRecord.getTags r) k) = true) →
  getAnonCredsTagsFromRecord r
  = Some (anonCredsPart (W3cCredentialRecord.getTags r)).
Proof.
  intros [m Hm] Hall. unfold getAnonCredsTagsFromRecord. rewrite Hm.
  by apply requiredTagMissing_false in Hall as ->.
Qed.

(** The projection of a record without its side-table entry never gets
    to the metadata check: the extractor has already answered
    [undefined]. *)
Lemma w3c_projection_without_metadata r :
  anoncredsMetadata r = None →
  anoncredsCredentialInfoFromW3cRecord r = Throw MissingTags ∨
  anoncredsCredentialInfoFromW3cRecord r = Throw MalformedCredentialSubject.
Proof.
  intros Hnone. unfold anoncredsCredentialInfoFromW3cRecord.
  destruct (W3cVerifiableCredential.credentialSubject _); [|by right].
  left. by rewrite (extractor_without_metadata r Hnone).
Qed.

(** The [MissingMetadata] throw is unreachable. *)
Lemma w3c_projection_never_missing_metadata r :
  anoncredsCredentialInfoFromW3cRecord r ≠ Throw MissingMetadata.
Proof.
  unfold anoncredsCredentialInfoFromW3cRecord, getAnonCredsTagsFromRecord.
  destruct (W3cVerifiableCredential.credentialSubject _); [|done].
  destruct (anoncredsMetadata r); [|done].
  destruct (requiredTagMissing _); done.
Qed.

Lemma w3c_projection_of_array r l :
  W3cVerifiableCredential.credentialSubject (W3cCredentialRecord.credential r)
  = SubjectArray l →
  anoncredsCredentialInfoFromW3cRecord r = Throw MalformedCredentialSubject.
Proof. unfold anoncredsCredentialInfoFromW3cRecord. by intros ->. Qed.

Lemma w3c_projection_without_tags r s :
  W3cVerifiableCredential.credentialSubject (W3cCredentialRecord.credential r)
  = SingleSubject s →
  getAnonCredsTagsFromRecord r = None →
  anoncredsCredentialInfoFromW3cRecord r = Throw MissingTags.
Proof.
  unfold anoncredsCredentialInfoFromW3cRecord. by intros -> ->.
Qed.

(** C7, amended.  The extractor answers absent when the side-table entry
    is absent; it answers absent when one of the seven required tags is
    missing or holds a value that is not truthy; in every other case it
    answers with the [anonCreds]-prefixed part of the record's tag
    mapping, so every key it returns begins with [anonCreds]. *)
Theorem tag_extraction_characterised r :
  (anoncredsMetadata r = None → getAnonCredsTagsFromRecord r = None) ∧
  (∀ k, k ∈ requiredTagKeys →
        W3cCredentialRecord.getTags r !! k = None ∨
        truthy (prop (W3cCredentialRecord.getTags r) k) = false →
        getAnonCredsTagsFromRecord r = None) ∧
  (is_Some (anoncredsMetadata r) →
   (∀ k, k ∈ requiredTagKeys →
         truthy (prop (W3cCredentialRecord.getTags r) k) = true) →
   ∃ tags,
     getAnonCredsTagsFromRecord r = Some tags ∧
     (∀ k, k ∈ dom tags → startsWithAnonCreds k = true) ∧
     (∀ k v, tags !! k = Some v ↔
             W3cCredentialRecord.getTags r !! k = Some v ∧
             startsWithAnonCreds k = true)).
Proof.
  split; [apply extractor_without_metadata|]. split.
  - intros k Hin [Hnone|Hfalsy].
    + eapply extractor_with_untruthy_tag; [done|].
      by apply absent_key_not_truthy.
    + by eapply extractor_with_untruthy_tag.
  - intros Hmeta Hall. eexists. split.
    + by apply extractor_with_all_truthy.
    + split.
      * intros k [v Hv]%elem_of_dom.
        by apply anonCredsPart_lookup in Hv as [_ ?].
      * apply anonCredsPart_lookup.
Qed.

(** C10, amended.  With the side-table entry present and all seven
    required keys present, a required tag that holds the empty string
    makes the extractor answer absent; the projection of such a record
    whose subject is a single object then fails with the missing-tags
    error. *)
Theorem empty_required_tag_counts_as_missing r k :
  is_Some (anoncredsMetadata r) →
  (∀ k', k' ∈ requiredTagKeys →
         is_Some (W3cCredentialRecord.getTags r !! k')) →
  k ∈ requiredTagKeys →
  W3cCredentialRecord.getTags r !! k = Some (JString "") →
  getAnonCredsTagsFromRecord r = None ∧
  ∀ s,
    W3cVerifiableCredential.credentialSubject
      (W3cCredentialRecord.credential r) = SingleSubject s →
    getAnoncredsCredentialInfoFromRecord (IsW3cCredentialRecord r)
    = Throw MissingTags.
Proof.
  intros _ _ Hin Hempty.
  assert (getAnonCredsTagsFromRecord r = None) as Habsent.
  { eapply extractor_with_untruthy_tag; [exact Hin|].
    by apply empty_string_not_truthy. }
  split; [exact Habsent|]. intros s Hs. simpl.
  by eapply w3c_projection_without_tags.
Qed.

End W3cProjection.

(** ** Tag keys as strings *)

Section Keys.

Lemma append_cons c s t : String c s +:+ t = String c (s +:+ t).
Proof. reflexivity. Qed.

Lemma list_ascii_of_append s t :
  String.list_ascii_of_string (s +:+ t)
  = (String.list_ascii_of_string s ++ String.list_ascii_of_string t)%list.
Proof.
  induction s as [|c s IH]; [done|].
  rewrite append_cons. simpl. by rewrite IH.
Qed.

Lemma list_ascii_of_string_inj s t :
  String.list_ascii_of_string s = String.list_ascii_of_string t → s = t.
Proof.
  intros Heq.
  rewrite <- (String.string_of_list_ascii_of_string s),
          <- (String.string_of_list_ascii_of_string t).
  by rewrite Heq.
Qed.

Lemma append_inj_suffix s a b : a +:+ s = b +:+ s → a = b.
Proof.
  intros Heq. apply list_ascii_of_string_inj.
  apply (f_equal String.list_ascii_of_string) in Heq.
  rewrite !list_ascii_of_append in Heq.
  by apply app_inv_tail in Heq.
Qed.

Lemma prefix_append p s : String.prefix p (p +:+ s) = true.
Proof.
  induction p as [|c p IH].
  - by destruct s.
  - rewrite append_cons. simpl.
    destruct (ascii_dec c c) as [_|Hne]; [exact IH|done].
Qed.

Lemma attrValueKey_inj a b : attrValueKey a = attrValueKey b → a = b.
Proof.
  unfold attrValueKey. intros Heq.
  apply (inj (String.append "anonCredsAttr::")) in Heq.
  by apply append_inj_suffix in Heq.
Qed.

Lemma attrMarkerKey_inj a b : attrMarkerKey a = attrMarkerKey b → a = b.
Proof.
  unfold attrMarkerKey. intros Heq.
  apply (inj (String.append "anonCredsAttr::")) in Heq.
  by apply append_inj_suffix in Heq.
Qed.

(** A [::value] key is never a [::marker] key: they end differently. *)
Lemma attrValueKey_not_marker a b : attrValueKey a ≠ attrMarkerKey b.
Proof.
  unfold attrValueKey, attrMarkerKey. intros Heq.
  apply (inj (String.append "anonCredsAttr::")) in Heq.
  apply (f_equal String.list_ascii_of_string) in Heq.
  rewrite !list_ascii_of_append in Heq.
  apply (f_equal (@rev ascii)) in Heq.
  rewrite !rev_app_distr in Heq. simpl in Heq. discriminate.
Qed.

Lemma attrValueKey_isAttrKey a : isAttrKey (attrValueKey a) = true.
Proof. apply prefix_append. Qed.

Lemma attrMarkerKey_isAttrKey a : isAttrKey (attrMarkerKey a) = true.
Proof. apply prefix_append. Qed.

Lemma fixedTagKeys_not_attr k : k ∈ fixedTagKeys → isAttrKey k = false.
Proof.
  unfold fixedTagKeys, requiredTagKeys, revocationTagKeys,
    unqualifiedTagKeys. simpl. intros Hin.
  repeat (apply elem_of_cons in Hin as [->|Hin]; [reflexivity|]).
  by apply elem_of_nil in Hin.
Qed.

End Keys.

(** ** The attribute loop of the tag deriver *)

Section AttributeLoop.

Implicit Types (tags : gmap string JsValue)
  (l : list (string * AnonCredsCredentialValue.t))
  (values : gmap string AnonCredsCredentialValue.t).

Lemma addAttributeTags_foldl tags values :
  addAttributeTags tags values
  = foldl writePair tags (map_to_list values).
Proof. reflexivity. Qed.

Lemma writePairs_other l tags k :
  (∀ a, a ∈ l.*1 → k ≠ attrValueKey a ∧ k ≠ attrMarkerKey a) →
  foldl writePair tags l !! k = tags !! k.
Proof.
  revert tags. induction l as [|[a v] l IH]; intros tags Hk; [done|].
  simpl. rewrite IH.
  - destruct (Hk a) as [Hv Hm]; [by left|].
    unfold writePair. simpl.
    rewrite lookup_insert_ne by done. by rewrite lookup_insert_ne.
  - intros b Hb. apply Hk. by right.
Qed.

Lemma writePairs_value l tags a v :
  NoDup l.*1 → (a, v) ∈ l →
  foldl writePair tags l !! attrValueKey a = Some (rawOf v) ∧
  foldl writePair tags l !! attrMarkerKey a = Some (JBool true).
Proof.
  revert tags. induction l as [|[b w] l IH]; intros tags Hnd Hin.
  - by apply elem_of_nil in Hin.
  - simpl in Hnd. apply NoDup_cons in Hnd as [Hfresh Hnd].
    apply elem_of_cons in Hin as [Heq|Hin].
    + injection Heq as <- <-. simpl.
      rewrite !writePairs_other.
      * unfold writePair. simpl. split.
        -- rewrite lookup_insert_ne
             by (intros Habs; by apply (attrValueKey_not_marker a a)).
           by rewrite lookup_insert_eq.
        -- by rewrite lookup_insert_eq.
      * intros c Hc. split.
        -- intros Habs. by apply (attrValueKey_not_marker c a).
        -- intros Habs%attrMarkerKey_inj. by subst.
      * intros c Hc. split.
        -- intros Habs%attrValueKey_inj. by subst.
        -- apply attrValueKey_not_marker.
    + simpl. by apply IH.
Qed.

Lemma writePairs_dom l tags :
  dom (foldl writePair tags l)
  = dom tags ∪ list_to_set (attrValueKey <$> l.*1)
             ∪ list_to_set (attrMarkerKey <$> l.*1).
Proof.
  revert tags. induction l as [|[a v] l IH]; intros tags.
  - apply set_eq. intros k.
    rewrite !elem_of_union, !elem_of_list_to_set. simpl.
    rewrite elem_of_nil. tauto.
  - simpl. rewrite IH. unfold writePair. simpl.
    rewrite !dom_insert_L. apply set_eq. intros k.
    rewrite !elem_of_union, !elem_of_singleton. tauto.
Qed.

Lemma addAttributeTags_other tags values k :
  isAttrKey k = false → addAttributeTags tags values !! k = tags !! k.
Proof.
  intros Hk. rewrite addAttributeTags_foldl.
  apply writePairs_other. intros a _. split; intros ->.
  - by rewrite attrValueKey_isAttrKey in Hk.
  - by rewrite attrMarkerKey_isAttrKey in Hk.
Qed.

Lemma addAttributeTags_pair tags values a v :
  values !! a = Some v →
  addAttributeTags tags values !! attrValueKey a = Some (rawOf v) ∧
  addAttributeTags tags values !! attrMarkerKey a = Some (JBool true).
Proof.
  intros Hv. rewrite addAttributeTags_foldl.
  apply writePairs_value.
  - apply NoDup_fst_map_to_list.
  - by apply elem_of_map_to_list.
Qed.

Lemma addAttributeTags_dom tags values :
  dom (addAttributeTags tags values)
  = dom tags ∪ set_map attrValueKey (dom values)
             ∪ set_map attrMarkerKey (dom values).
Proof.
  rewrite addAttributeTags_foldl, writePairs_dom.
  apply set_eq. intros k.
  rewrite !elem_of_union, !elem_of_list_to_set, !elem_of_map,
    !list_elem_of_fmap.
  assert (∀ a, a ∈ (map_to_list values).*1 ↔ a ∈ dom values) as Hkeys.
  { intros a. rewrite list_elem_of_fmap, elem_of_dom. split.
    - intros ([b v] & -> & Hin). apply elem_of_map_to_list in Hin.
      by eexists.
    - intros [v Hv]. exists (a, v). split; [done|].
      by apply elem_of_map_to_list. }
  split.
  - intros [[?|(a & -> & Ha)]|(a & -> & Ha)]; [by left; left|..].
    + left; right. exists a. split; [done|]. by apply Hkeys.
    + right. exists a. split; [done|]. by apply Hkeys.
  - intros [[?|(a & -> & Ha)]|(a & -> & Ha)]; [by left; left|..].
    + left; right. exists a. split; [done|]. by apply Hkeys.
    + right. exists a. split; [done|]. by apply Hkeys.
Qed.

End AttributeLoop.

(** ** The tag deriver *)

Section TagDeriver.
Context `{Imports}.

Implicit Types (options : TagOptions.t) (tags : gmap string JsValue).

Lemma structuralTags_dom options :
  dom (structuralTags options)
  = list_to_set requiredTagKeys ∪ list_to_set revocationTagKeys.
Proof.
  unfold structuralTags, objectLiteral. simpl.
  rewrite !dom_insert_L, dom_empty_L. set_solver.
Qed.

(** What the guarded spread evaluates to. *)
Lemma unqualifiedTags_inv options extra :
  unqualifiedTags (issuerOf options) options = Return extra →
  (isIndyDid (issuerOf options) = false ∧ extra = None) ∨
  (isIndyDid (issuerOf options) = true ∧
   ∃ issuer credentialDefinition schema schemaIssuer revocationRegistry,
     getUnQualifiedDidIndyDid (issuerOf options) = Return issuer ∧
     getUnQualifiedDidIndyDid (TagOptions.credentialDefinitionId options)
     = Return credentialDefinition ∧
     getUnQualifiedDidIndyDid (TagOptions.schemaId options)
     = Return schema ∧
     getUnQualifiedDidIndyDid
       (AnonCredsSchema.issuerId (TagOptions.schema options))
     = Return schemaIssuer ∧
     unqualifiedRevocationRegistryId
       (TagOptions.revocationRegistryId options)
     = Return revocationRegistry ∧
     extra =
       Some
         [ ("anonCredsUnqualifiedIssuerId", JString issuer);
           ("anonCredsUnqualifiedCredentialDefinitionId",
             JString credentialDefinition);
           ("anonCredsUnqualifiedSchemaId", JString schema);
           ("anonCredsUnqualifiedSchemaIssuerId", JString schemaIssuer);
           ("anonCredsUnqualifiedRevocationRegistryId",
             revocationRegistry) ]).
Proof.
  unfold unqualifiedTags.
  destruct (isIndyDid (issuerOf options)); [|intros [= <-]; by left].
  intros Hrun. right. split; [done|].
  destruct (getUnQualifiedDidIndyDid (issuerOf options))
    as [issuer|] eqn:H1; [|done].
  destruct (getUnQualifiedDidIndyDid
              (TagOptions.credentialDefinitionId options))
    as [credentialDefinition|] eqn:H2; [|done].
  destruct (getUnQualifiedDidIndyDid (TagOptions.schemaId options))
    as [schema|] eqn:H3; [|done].
  destruct (getUnQualifiedDidIndyDid
              (AnonCredsSchema.issuerId (TagOptions.schema options)))
    as [schemaIssuer|] eqn:H4; [|done].
  destruct (unqualifiedRevocationRegistryId
              (TagOptions.revocationRegistryId options))
    as [revocationRegistry|] eqn:H5; [|done].
  simpl in Hrun. injection Hrun as <-.
  by exists issuer, credentialDefinition, schema, schemaIssuer,
    revocationRegistry.
Qed.

(** The mirrored revocation-registry id is a string exactly when the
    registry is present, and [undefined] otherwise. *)
Lemma unqualifiedRevocationRegistryId_inv options v :
  unqualifiedRevocationRegistryId (TagOptions.revocationRegistryId options)
  = Return v →
  if revocationRegistryPresent options
  then ∃ r u, TagOptions.revocationRegistryId options = Some r ∧
              getUnQualifiedDidIndyDid r = Return u ∧ v = JString u
  else v = JUndefined.
Proof.
  unfold unqualifiedRevocationRegistryId, revocationRegistryPresent.
  destruct (TagOptions.revocationRegistryId options) as [r|];
    [|by intros [= <-]].
  destruct (truthy (JString r)); [|by intros [= <-]].
  destruct (getUnQualifiedDidIndyDid r) as [u|] eqn:Hu; [|done].
  intros [= <-]. by exists r, u.
Qed.

(** Acceptable identifiers are all the guarded spread needs. *)
Lemma unqualifiedTags_returns options :
  mirrorableIds options →
  returns (unqualifiedTags (issuerOf options) options).
Proof.
  unfold mirrorableIds, unqualifiedTags. intros Hids.
  destruct (isIndyDid (issuerOf options)); [|by eexists].
  destruct (Hids eq_refl)
    as ([u1 ->] & [u2 ->] & [u3 ->] & [u4 ->] & Hregistry).
  simpl. unfold unqualifiedRevocationRegistryId.
  destruct (TagOptions.revocationRegistryId options) as [registry|];
    [|by eexists].
  destruct (truthy (JString registry)) eqn:Htruthy; [|by eexists].
  destruct (Hregistry registry eq_refl Htruthy) as [u5 ->].
  by eexists.
Qed.

(** On a valid context the deriver returns, and what it returns is the
    object literal with the attribute pairs written into it. *)
Lemma deriver_returns options s extra :
  subjectOf options = SingleSubject s →
  unqualifiedTags (issuerOf options) options = Return extra →
  getW3cRecordAnonCredsTags options
  = Return
      (addAttributeTags (spread (structuralTags options) extra)
         (mapAttributeRawValuesToAnonCredsCredentialValues
            (claimsOf options))).
Proof.
  intros Hs Hextra. unfold getW3cRecordAnonCredsTags, claimsOf.
  fold (issuerOf options). rewrite Hextra. simpl.
  fold (subjectOf options). by rewrite Hs.
Qed.

Lemma deriver_rejects_array options l :
  subjectOf options = SubjectArray l →
  ¬ returns (getW3cRecordAnonCredsTags options) ∧
  (mirrorableIds options →
   getW3cRecordAnonCredsTags options = Throw MalformedCredentialSubject).
Proof.
  intros Hs. unfold getW3cRecordAnonCredsTags.
  fold (issuerOf options).
  destruct (unqualifiedTags (issuerOf options) options)
    as [extra|e] eqn:Hextra.
  - simpl. fold (subjectOf options). rewrite Hs.
    split; [by intros [? ?]|done].
  - simpl. split; [by intros [? ?]|].
    intros [? Habs]%unqualifiedTags_returns. congruence.
Qed.

Lemma spread_dom options extra :
  unqualifiedTags (issuerOf options) options = Return extra →
  dom (spread (structuralTags options) extra)
  = list_to_set requiredTagKeys ∪ list_to_set revocationTagKeys ∪
    (if isIndyDid (issuerOf options)
     then list_to_set unqualifiedTagKeys else ∅).
Proof.
  intros [[-> ->]|[-> Hextra]]%unqualifiedTags_inv.
  - simpl. rewrite structuralTags_dom. set_solver.
  - destruct Hextra as (u1 & u2 & u3 & u4 & v5 & _ & _ & _ & _ & _ & ->).
    unfold spread. simpl. rewrite !dom_insert_L, structuralTags_dom.
    unfold unqualifiedTagKeys. set_solver.
Qed.

Lemma mapped_claims_dom (claims : gmap string ClaimValue) :
  dom (mapAttributeRawValuesToAnonCredsCredentialValues claims) = dom claims.
Proof.
  unfold mapAttributeRawValuesToAnonCredsCredentialValues.
  apply dom_fmap_L.
Qed.

Lemma derived_lookup_fixed options extra k :
  k ∈ fixedTagKeys →
  addAttributeTags (spread (structuralTags options) extra)
    (mapAttributeRawValuesToAnonCredsCredentialValues (claimsOf options))
  !! k
  = spread (structuralTags options) extra !! k.
Proof.
  intros Hk. apply addAttributeTags_other.
  by apply fixedTagKeys_not_attr.
Qed.

End TagDeriver.

Section TagDeriverClaims.
Context `{Imports}.

Implicit Types (options : TagOptions.t) (tags : gmap string JsValue).

Ltac fixed_key :=
  unfold fixedTagKeys, requiredTagKeys, revocationTagKeys,
    unqualifiedTagKeys; simpl;
  repeat first [ by apply elem_of_cons; left | apply elem_of_cons; right ].

Ltac lookup_literal :=
  unfold structuralTags, objectLiteral, spread; simpl;
  repeat first
    [ rewrite lookup_insert_eq
    | rewrite lookup_insert_ne by done ];
  try done.

Lemma spread_keeps_structural options extra k :
  unqualifiedTags (issuerOf options) options = Return extra →
  k ∈ (requiredTagKeys ++ revocationTagKeys)%list →
  spread (structuralTags options) extra !! k = structuralTags options !! k.
Proof.
  intros [[_ ->]|[_ Hextra]]%unqualifiedTags_inv Hk; [done|].
  destruct Hextra as (u1 & u2 & u3 & u4 & v5 & _ & _ & _ & _ & _ & ->).
  unfold requiredTagKeys, revocationTagKeys in Hk. simpl in Hk.
  unfold spread. simpl.
  repeat (apply elem_of_cons in Hk as [->|Hk];
          [by repeat (rewrite lookup_insert_ne by done)|]).
  by apply elem_of_nil in Hk.
Qed.

Lemma unqualified_keys_fixed k :
  k ∈ unqualifiedTagKeys → k ∈ fixedTagKeys.
Proof.
  intros Hk. unfold fixedTagKeys. rewrite !elem_of_app. by right; right.
Qed.

Lemma unqualified_keys_not_structural k :
  k ∈ unqualifiedTagKeys →
  k ∉ (requiredTagKeys ++ revocationTagKeys)%list.
Proof.
  unfold unqualifiedTagKeys, requiredTagKeys, revocationTagKeys. simpl.
  intros Hk Hin.
  repeat (apply elem_of_cons in Hk as [->|Hk];
          [repeat (apply elem_of_cons in Hin as [Hin|Hin];
                   [discriminate|]);
           by apply elem_of_nil in Hin|]).
  by apply elem_of_nil in Hk.
Qed.

Lemma structural_keys_fixed k :
  k ∈ (requiredTagKeys ++ revocationTagKeys)%list → k ∈ fixedTagKeys.
Proof.
  unfold fixedTagKeys. rewrite !elem_of_app. intros [?|?]; auto.
Qed.

(** C3, amended.  On every valid derivation context the deriver returns
    a tag object whose keys are exactly: the seven required keys; the two
    keys [anonCredsRevocationRegistryId] and
    [anonCredsCredentialRevocationId], which are always written and hold
    the context's own value, or [undefined] when the context has none;
    the five [anonCredsUnqualified...] keys when the issuer id is an indy
    DID; and one [::value] / [::marker] pair for each claim name.  The
    required tags hold the context's values, a [::value] key is there
    exactly when its claim is, and so is its [::marker] key. *)
Theorem derived_tag_set options :
  validContext options →
  ∃ tags,
    getW3cRecordAnonCredsTags options = Return tags ∧
    dom tags
    = list_to_set requiredTagKeys ∪ list_to_set revocationTagKeys ∪
      (if isIndyDid (issuerOf options)
       then list_to_set unqualifiedTagKeys else ∅) ∪
      set_map attrValueKey (dom (claimsOf options)) ∪
      set_map attrMarkerKey (dom (claimsOf options)) ∧
    requiredTagsVerbatim options tags ∧
    tags !! "anonCredsRevocationRegistryId"
    = Some (optOrUndefined (TagOptions.revocationRegistryId options)) ∧
    tags !! "anonCredsCredentialRevocationId"
    = Some (optOrUndefined (TagOptions.credentialRevocationId options)) ∧
    (∀ a, attrValueKey a ∈ dom tags ↔ a ∈ dom (claimsOf options)) ∧
    (∀ a, attrMarkerKey a ∈ dom tags ↔ a ∈ dom (claimsOf options)) ∧
    (∀ a v, claimsOf options !! a = Some v →
            tags !! attrValueKey a = Some (JString (rawValue v)) ∧
            tags !! attrMarkerKey a = Some (JBool true)).
Proof.
  intros [[s Hs] [extra Hextra]%unqualifiedTags_returns].
  eexists. split; [by apply (deriver_returns options s extra)|].
  assert (∀ k, k ∈ (requiredTagKeys ++ revocationTagKeys)%list →
    addAttributeTags (spread (structuralTags options) extra)
      (mapAttributeRawValuesToAnonCredsCredentialValues (claimsOf options))
    !! k = structuralTags options !! k) as Hfixed.
  { intros k Hk. rewrite derived_lookup_fixed
      by by apply structural_keys_fixed.
    by apply spread_keeps_structural. }
  assert (dom (addAttributeTags (spread (structuralTags options) extra)
      (mapAttributeRawValuesToAnonCredsCredentialValues (claimsOf options)))
    = list_to_set requiredTagKeys ∪ list_to_set revocationTagKeys ∪
      (if isIndyDid (issuerOf options)
       then list_to_set unqualifiedTagKeys else ∅) ∪
      set_map attrValueKey (dom (claimsOf options)) ∪
      set_map attrMarkerKey (dom (claimsOf options))) as Hdom.
  { by rewrite addAttributeTags_dom, mapped_claims_dom,
      (spread_dom options extra Hextra). }
  assert (∀ k, k ∈ list_to_set requiredTagKeys ∪
                   list_to_set revocationTagKeys ∪
                   (if isIndyDid (issuerOf options)
                    then list_to_set unqualifiedTagKeys else ∅
                    : gset string) →
               isAttrKey k = false) as Hnot_attr.
  { intros k Hk. apply fixedTagKeys_not_attr. unfold fixedTagKeys.
    rewrite !elem_of_app.
    apply elem_of_union in Hk as [[Hk|Hk]%elem_of_union|Hk].
    - left. by apply elem_of_list_to_set in Hk.
    - right; left. by apply elem_of_list_to_set in Hk.
    - right; right. destruct (isIndyDid (issuerOf options)).
      + by apply elem_of_list_to_set in Hk.
      + by apply not_elem_of_empty in Hk. }
  split; [exact Hdom|]. split; [|split; [|split; [|split; [|split]]]].
  - unfold requiredTagsVerbatim.
    rewrite !Hfixed by fixed_key. by lookup_literal.
  - rewrite Hfixed by fixed_key. by lookup_literal.
  - rewrite Hfixed by fixed_key. by lookup_literal.
  - intros a. rewrite Hdom. split.
    + intros [[Hk|Hk]%elem_of_union|Hk]%elem_of_union.
      * apply Hnot_attr in Hk.
        by rewrite attrValueKey_isAttrKey in Hk.
      * apply elem_of_map in Hk as (b & Hb%attrValueKey_inj & Hin).
        by subst.
      * apply elem_of_map in Hk as (b & Hb & Hin).
        by apply attrValueKey_not_marker in Hb.
    + intros Ha. apply elem_of_union. left. apply elem_of_union. right.
      apply elem_of_map. by exists a.
  - intros a. rewrite Hdom. split.
    + intros [[Hk|Hk]%elem_of_union|Hk]%elem_of_union.
      * apply Hnot_attr in Hk.
        by rewrite attrMarkerKey_isAttrKey in Hk.
      * apply elem_of_map in Hk as (b & Hb & Hin).
        symmetry in Hb. by apply attrValueKey_not_marker in Hb.
      * apply elem_of_map in Hk as (b & Hb%attrMarkerKey_inj & Hin).
        by subst.
    + intros Ha. apply elem_of_union. right.
      apply elem_of_map. by exists a.
  - intros a v Hv.
    apply (addAttributeTags_pair
             (spread (structuralTags options) extra)
             (mapAttributeRawValuesToAnonCredsCredentialValues
                (claimsOf options)) a
             {| AnonCredsCredentialValue.raw := rawValue v;
                AnonCredsCredentialValue.encoded :=
                  encodeCredentialValue v |}).
    unfold mapAttributeRawValuesToAnonCredsCredentialValues.
    by rewrite lookup_fmap, Hv.
Qed.

(** C4.  On every valid derivation context the five unqualified mirror
    keys are in the derived tags if and only if the issuer id is an indy
    DID; when it is, the keys for the issuer id, the credential-definition
    id, the schema id and the schema issuer id hold the unqualified form
    of these identifiers, and the key for the revocation-registry id
    holds the unqualified form of that id when the registry is present
    and [undefined] when it is not. *)
Theorem unqualified_mirror_iff_indy options :
  validContext options →
  ∃ tags,
    getW3cRecordAnonCredsTags options = Return tags ∧
    (∀ k, k ∈ unqualifiedTagKeys →
          (k ∈ dom tags ↔ isIndyDid (issuerOf options) = true)) ∧
    (isIndyDid (issuerOf options) = true →
     mirrors tags "anonCredsUnqualifiedIssuerId" (issuerOf options) ∧
     mirrors tags "anonCredsUnqualifiedCredentialDefinitionId"
       (TagOptions.credentialDefinitionId options) ∧
     mirrors tags "anonCredsUnqualifiedSchemaId"
       (TagOptions.schemaId options) ∧
     mirrors tags "anonCredsUnqualifiedSchemaIssuerId"
       (AnonCredsSchema.issuerId (TagOptions.schema options)) ∧
     if revocationRegistryPresent options
     then ∃ r, TagOptions.revocationRegistryId options = Some r ∧
               mirrors tags "anonCredsUnqualifiedRevocationRegistryId" r
     else tags !! "anonCredsUnqualifiedRevocationRegistryId"
          = Some JUndefined).
Proof.
  intros [[s Hs] [extra Hextra]%unqualifiedTags_returns].
  eexists. split; [by apply (deriver_returns options s extra)|].
  split.
  - intros k Hk. rewrite elem_of_dom.
    rewrite derived_lookup_fixed by by apply unqualified_keys_fixed.
    rewrite <- elem_of_dom, (spread_dom options extra Hextra).
    destruct (isIndyDid (issuerOf options)).
    + split; [done|]. intros _. apply elem_of_union. right.
      by apply elem_of_list_to_set.
    + split; [|done].
      intros [Hin|Hin]%elem_of_union.
      * rewrite <- list_to_set_app_L, elem_of_list_to_set in Hin.
        by apply unqualified_keys_not_structural in Hk.
      * by apply not_elem_of_empty in Hin.
  - intros Hindy.
    apply unqualifiedTags_inv in Hextra as [[Hno _]|[_ Hextra]];
      [congruence|].
    destruct Hextra
      as (u1 & u2 & u3 & u4 & v5 & H1 & H2 & H3 & H4 & H5 & ->).
    apply unqualifiedRevocationRegistryId_inv in H5.
    unfold mirrors.
    rewrite !derived_lookup_fixed by fixed_key.
    split; [exists u1; split; [done|]; by lookup_literal|].
    split; [exists u2; split; [done|]; by lookup_literal|].
    split; [exists u3; split; [done|]; by lookup_literal|].
    split; [exists u4; split; [done|]; by lookup_literal|].
    destruct (revocationRegistryPresent options).
    + destruct H5 as (r & u & Hr & Hu & ->). exists r. split; [done|].
      exists u. split; [done|]. by lookup_literal.
    + subst v5. by lookup_literal.
Qed.

End TagDeriverClaims.

(** ** Store-time normalisation *)

Section StoreNormalisation.
Context `{Imports}.

Implicit Types (options : StoreCredentialOptions.t)
  (indyNamespace : option string).

Lemma qualifyIf_skips {A} (cond : A → bool) rewrite indyNamespace (x : A) :
  cond x = false → qualifyIf cond rewrite indyNamespace x = Return x.
Proof. unfold qualifyIf. by intros ->. Qed.

Lemma normalisation_keeps_qualified uuid options indyNamespace :
  qualifiedIds options →
  definitionNormalises indyNamespace options →
  ∃ options',
    getStoreCredentialOptions uuid options indyNamespace = Return options' ∧
    sameIdentifiers options options' ∧
    qualifiedIds options' ∧
    StoreCredentialOptions.credentialId options' = Some uuid.
Proof.
  intros (Hid & Hschema & Hdef & Hrev) Hnorm.
  unfold getStoreCredentialOptions.
  rewrite (qualifyIf_skips _ _ _ _ Hid), (qualifyIf_skips _ _ _ _ Hschema),
    (qualifyIf_skips _ _ _ _ Hdef).
  simpl.
  destruct (StoreCredentialOptions.revocationRegistry options)
    as [revocationRegistry|] eqn:Hrr.
  - destruct (Hnorm revocationRegistry Hrr) as [definition Hdefinition].
    rewrite Hdefinition. simpl.
    rewrite (qualifyIf_skips _ _ _ _ (Hrev revocationRegistry eq_refl)).
    simpl. eexists. split; [reflexivity|].
    unfold sameIdentifiers, qualifiedIds. simpl. rewrite Hrr. simpl.
    repeat split; try done.
    intros ? [= <-]. simpl. by apply Hrev.
  - simpl. eexists. split; [reflexivity|].
    unfold sameIdentifiers, qualifiedIds. simpl. rewrite Hrr.
    repeat split; done.
Qed.

(** C8, amended.  When the credential-definition id, the schema, the
    credential definition and the revocation-registry id of the options are
    not in unqualified form, and the rewriting of the revocation-registry
    definition does not throw, the normalisation returns, with each of
    these four fields unchanged; they are again not in unqualified form, so
    a second run on the output, under the same condition on its
    revocation-registry definition, leaves them unchanged once more. *)
Theorem store_normalisation_idempotent uuid options indyNamespace :
  qualifiedIds options →
  definitionNormalises indyNamespace options →
  ∃ options',
    getStoreCredentialOptions uuid options indyNamespace = Return options' ∧
    sameIdentifiers options options' ∧
    ∀ uuid',
      definitionNormalises indyNamespace options' →
      ∃ options'',
        getStoreCredentialOptions uuid' options' indyNamespace
        = Return options'' ∧
        sameIdentifiers options' options''.
Proof.
  intros Hq Hnorm.
  destruct (normalisation_keeps_qualified uuid options indyNamespace Hq Hnorm)
    as (options' & Hrun & Hsame & Hq' & _).
  exists options'. split; [done|]. split; [done|].
  intros uuid' Hnorm'.
  destruct (normalisation_keeps_qualified uuid' options' indyNamespace
              Hq' Hnorm')
    as (options'' & Hrun' & Hsame' & _).
  by exists options''.
Qed.

End StoreNormalisation.

(** ** The definitions run on the sample records *)

Section Runs.
#[local] Existing Instance Sample.imports.

Ltac sample_ids :=
  let Hindy := fresh "Hindy" in
  intros Hindy; vm_compute in Hindy;
  first
    [ discriminate Hindy
    | split_and!; [by eexists..|intros ? ?; discriminate] ].

Ltac each_required Hk :=
  unfold requiredTagKeys in Hk;
  repeat (apply elem_of_cons in Hk as [->|Hk]; [by vm_compute; eauto|]);
  by apply elem_of_nil in Hk.

(** C1.  An ordinary native record, with the single attribute [name] in
    its value table, is not projected to its attributes: the loop runs
    over the property names of the credential object, [schema_id] has no
    entry in the value table, and reading [.raw] faults. *)
Theorem native_projection_faults_on_degree_record :
  AnonCredsCredential.values
    (AnonCredsCredentialRecord.credential Sample.degreeRecord)
  = {[ "name" := AnonCredsCredentialValue.mk "Alice" "27034640024" ]} ∧
  getAnoncredsCredentialInfoFromRecord
    (IsAnonCredsCredentialRecord Sample.degreeRecord)
  = Throw TypeError.
Proof. split; reflexivity. Qed.

(** C2.  A native record and a standards-based record of the same
    credential: the standards-based one is projected to the attribute
    [name = "Alice"] and the shared ids, the native one is not projected
    at all. *)
Theorem projections_disagree_on_degree_records :
  getAnoncredsCredentialInfoFromRecord
    (IsW3cCredentialRecord Sample.w3cDegreeRecord)
  = Return
      {| AnonCredsCredentialInfo.attributes :=
         {[ "name" := ClaimString "Alice" ]};
         AnonCredsCredentialInfo.credentialId := "w3c-1";
         AnonCredsCredentialInfo.credentialDefinitionId :=
           JString Sample.degreeCredDefId;
         AnonCredsCredentialInfo.schemaId := JString Sample.degreeSchemaId;
         AnonCredsCredentialInfo.credentialRevocationId := JNull;
         AnonCredsCredentialInfo.revocationRegistryId := JNull;
         AnonCredsCredentialInfo.methodName := "indy";
         AnonCredsCredentialInfo.linkSecretId := "link-secret" |} ∧
  getAnoncredsCredentialInfoFromRecord
    (IsAnonCredsCredentialRecord Sample.degreeRecord)
  = Throw TypeError.
Proof. split; reflexivity. Qed.

(** C5.  A standards-based record without its side-table entry is
    reported as lacking its tags, not as lacking its metadata. *)
Theorem missing_metadata_reported_as_missing_tags :
  anoncredsMetadata Sample.w3cNoMetadataRecord = None ∧
  getAnoncredsCredentialInfoFromRecord
    (IsW3cCredentialRecord Sample.w3cNoMetadataRecord)
  = Throw MissingTags.
Proof. split; reflexivity. Qed.

(** C3, as first stated, fails: with no revocation registry in the
    context the two revocation keys are still keys of the derived tags,
    holding [undefined]. *)
Lemma revocation_keys_written_without_registry :
  TagOptions.revocationRegistryId Sample.webOptions = None ∧
  ∃ tags,
    getW3cRecordAnonCredsTags Sample.webOptions = Return tags ∧
    "anonCredsRevocationRegistryId" ∈ dom tags ∧
    tags !! "anonCredsRevocationRegistryId" = Some JUndefined ∧
    tags !! "anonCredsCredentialRevocationId" = Some JUndefined.
Proof.
  split; [reflexivity|]. eexists. split; [reflexivity|].
  split; [|split; reflexivity].
  apply elem_of_dom. eexists. reflexivity.
Qed.

Lemma derived_tag_set_witness :
  ∃ tags,
    getW3cRecordAnonCredsTags (Sample.tagOptionsFor Sample.w3cDegreeRecord)
    = Return tags ∧
    tags !! "anonCredsAttr::name::value" = Some (JString "Alice") ∧
    tags !! "anonCredsAttr::name::marker" = Some (JBool true).
Proof.
  destruct (derived_tag_set (Sample.tagOptionsFor Sample.w3cDegreeRecord))
    as (tags & Hrun & _ & _ & _ & _ & _ & _ & Hpairs).
  - split; [by eexists|]. sample_ids.
  - exists tags. split; [exact Hrun|].
    apply (Hpairs "name" (ClaimString "Alice")). reflexivity.
Defined.

Lemma unqualified_mirror_iff_indy_witness :
  (∃ tags,
     getW3cRecordAnonCredsTags (Sample.tagOptionsFor Sample.w3cDegreeRecord)
     = Return tags ∧
     "anonCredsUnqualifiedSchemaId" ∈ dom tags) ∧
  (∃ tags,
     getW3cRecordAnonCredsTags Sample.webOptions = Return tags ∧
     "anonCredsUnqualifiedSchemaId" ∉ dom tags).
Proof.
  split.
  - destruct (unqualified_mirror_iff_indy
                (Sample.tagOptionsFor Sample.w3cDegreeRecord))
      as (tags & Hrun & Hiff & _).
    + split; [by eexists|]. sample_ids.
    + exists tags. split; [exact Hrun|].
      apply Hiff; [|reflexivity].
      unfold unqualifiedTagKeys.
      do 2 (apply elem_of_cons; right). by apply elem_of_cons; left.
  - destruct (unqualified_mirror_iff_indy Sample.webOptions)
      as (tags & Hrun & Hiff & _).
    + split; [by eexists|]. sample_ids.
    + exists tags. split; [exact Hrun|].
      intros Hin. apply Hiff in Hin; [discriminate|].
      unfold unqualifiedTagKeys.
      do 2 (apply elem_of_cons; right). by apply elem_of_cons; left.
Defined.

(** C7, as first stated, fails: the side-table entry is there and so are
    all seven required keys, yet the extractor answers absent, because
    the link-secret tag is the empty string. *)
Lemma extractor_absent_with_all_keys_present :
  is_Some (anoncredsMetadata Sample.w3cEmptyTagRecord) ∧
  (∀ k, k ∈ requiredTagKeys →
        is_Some (W3cCredentialRecord.getTags Sample.w3cEmptyTagRecord !! k)) ∧
  getAnonCredsTagsFromRecord Sample.w3cEmptyTagRecord = None.
Proof.
  split; [by eexists|]. split; [|reflexivity].
  intros k Hk. each_required Hk.
Qed.

Lemma tag_extraction_characterised_witness :
  ∃ tags,
    getAnonCredsTagsFromRecord Sample.w3cDegreeRecord = Some tags ∧
    tags !! "issuerId" = None ∧
    tags !! "anonCredsSchemaName" = Some (JString "degree").
Proof.
  destruct (tag_extraction_characterised Sample.w3cDegreeRecord)
    as (_ & _ & Hkeep).
  destruct Hkeep as (tags & Hrun & _ & Hlook).
  - by eexists.
  - intros k Hk. each_required Hk.
  - exists tags. split; [exact Hrun|]. split.
    + destruct (tags !! "issuerId") as [v|] eqn:Hv; [|done].
      apply Hlook in Hv as [_ Hprefix]. discriminate.
    + apply Hlook. split; vm_compute; reflexivity.
Defined.

Lemma empty_required_tag_counts_as_missing_witness :
  getAnonCredsTagsFromRecord Sample.w3cEmptyTagRecord = None ∧
  getAnoncredsCredentialInfoFromRecord
    (IsW3cCredentialRecord Sample.w3cEmptyTagRecord)
  = Throw MissingTags.
Proof.
  destruct (empty_required_tag_counts_as_missing Sample.w3cEmptyTagRecord
              "anonCredsLinkSecretId")
    as [Habsent Hproject].
  - by eexists.
  - intros k Hk. each_required Hk.
  - by apply elem_of_cons; left.
  - reflexivity.
  - split; [exact Habsent|]. by apply (Hproject Sample.aliceSubject).
Defined.

(** C10, as first stated, fails: on a record whose subject is an array
    the empty required tag is never looked at, and the projection fails
    with [MalformedCredentialSubject], not with the missing-tags error. *)
Lemma empty_tag_on_array_subject_is_malformed :
  is_Some (anoncredsMetadata Sample.w3cEmptyTagArrayRecord) ∧
  (∀ k, k ∈ requiredTagKeys →
        is_Some
          (W3cCredentialRecord.getTags Sample.w3cEmptyTagArrayRecord !! k)) ∧
  W3cCredentialRecord.getTags Sample.w3cEmptyTagArrayRecord
    !! "anonCredsLinkSecretId" = Some (JString "") ∧
  getAnoncredsCredentialInfoFromRecord
    (IsW3cCredentialRecord Sample.w3cEmptyTagArrayRecord)
  = Throw MalformedCredentialSubject ∧
  getAnoncredsCredentialInfoFromRecord
    (IsW3cCredentialRecord Sample.w3cEmptyTagArrayRecord)
  ≠ Throw MissingTags.
Proof.
  split; [by eexists|]. split; [|by repeat split].
  intros k Hk. each_required Hk.
Qed.

Lemma store_normalisation_idempotent_witness :
  ∃ options',
    getStoreCredentialOptions "uuid-1" Sample.qualifiedStoreOptions
      (Some "sovrin")
    = Return options' ∧
    sameIdentifiers Sample.qualifiedStoreOptions options'.
Proof.
  destruct (store_normalisation_idempotent "uuid-1"
              Sample.qualifiedStoreOptions (Some "sovrin"))
    as (options' & Hrun & Hsame & _).
  - repeat split; try reflexivity. by intros ? [= <-].
  - intros ? [= <-]. eexists. reflexivity.
  - by exists options'.
Defined.

End Runs.

(** * Further properties *)

(** ** The projector *)

Section FurtherProjection.
Context `{Imports}.

Implicit Types (r : W3cCredentialRecord.t) (tags : gmap string JsValue).

Lemma required_keys_prefixed k :
  k ∈ requiredTagKeys → startsWithAnonCreds k = true.
Proof.
  unfold requiredTagKeys. intros Hk.
  repeat (apply elem_of_cons in Hk as [->|Hk]; [reflexivity|]).
  by apply elem_of_nil in Hk.
Qed.

(** Reading a prefixed key through the extractor's filter is reading it
    off the record. *)
Lemma prop_anonCredsPart tags k :
  startsWithAnonCreds k = true → prop (anonCredsPart tags) k = prop tags k.
Proof.
  intros Hk. unfold prop.
  destruct (anonCredsPart tags !! k) as [v|] eqn:Hpart.
  - by apply anonCredsPart_lookup in Hpart as [-> _].
  - destruct (tags !! k) as [v|] eqn:Hv; [|done].
    assert (anonCredsPart tags !! k = Some v) as Habs
      by by apply anonCredsPart_lookup.
    congruence.
Qed.

Lemma w3c_projection_run r s entry :
  W3cVerifiableCredential.credentialSubject (W3cCredentialRecord.credential r)
  = SingleSubject s →
  anoncredsMetadata r = Some entry →
  requiredTagMissing (W3cCredentialRecord.getTags r) = false →
  anoncredsCredentialInfoFromW3cRecord r = Return (w3cInfo r s entry).
Proof.
  intros Hs Hentry Hrequired.
  unfold anoncredsCredentialInfoFromW3cRecord, getAnonCredsTagsFromRecord.
  rewrite Hs, Hentry, Hrequired. unfold w3cInfo.
  fold (anonCredsPart (W3cCredentialRecord.getTags r)).
  by rewrite !prop_anonCredsPart by reflexivity.
Qed.

Lemma w3c_projection_inv r info :
  anoncredsCredentialInfoFromW3cRecord r = Return info →
  ∃ s entry,
    W3cVerifiableCredential.credentialSubject
      (W3cCredentialRecord.credential r) = SingleSubject s ∧
    anoncredsMetadata r = Some entry ∧
    requiredTagMissing (W3cCredentialRecord.getTags r) = false ∧
    info = w3cInfo r s entry.
Proof.
  intros Hrun.
  destruct (W3cVerifiableCredential.credentialSubject
              (W3cCredentialRecord.credential r)) as [s|l] eqn:Hs.
  - destruct (anoncredsMetadata r) as [entry|] eqn:Hentry.
    + destruct (requiredTagMissing (W3cCredentialRecord.getTags r))
        eqn:Hrequired.
      * unfold anoncredsCredentialInfoFromW3cRecord,
          getAnonCredsTagsFromRecord in Hrun.
        rewrite Hs, Hentry, Hrequired in Hrun. discriminate.
      * rewrite (w3c_projection_run r s entry Hs Hentry Hrequired) in Hrun.
        injection Hrun as <-. by exists s, entry.
    + unfold anoncredsCredentialInfoFromW3cRecord,
        getAnonCredsTagsFromRecord in Hrun.
      rewrite Hs, Hentry in Hrun. discriminate.
  - unfold anoncredsCredentialInfoFromW3cRecord in Hrun.
    rewrite Hs in Hrun. discriminate.
Qed.

(** X1.  The standards-based projection returns an info exactly when the
    subject is a single object, the side-table entry is present and each of
    the seven required tags is truthy. *)
Theorem w3c_projection_returns_iff r :
  returns (getAnoncredsCredentialInfoFromRecord (IsW3cCredentialRecord r)) ↔
  projectable r.
Proof.
  simpl. split.
  - intros [info Hrun].
    apply w3c_projection_inv in Hrun
      as (s & entry & Hs & Hentry & Hrequired & _).
    split; [by exists s|]. split; [by exists entry|].
    by apply requiredTagMissing_false.
  - intros ([s Hs] & [entry Hentry] & Hrequired).
    apply requiredTagMissing_false in Hrequired.
    exists (w3cInfo r s entry). by apply w3c_projection_run.
Qed.

(** X2.  What the standards-based projection returns: the attributes are
    the subject's claims (none when the subject has no claims); the
    credential id, the credential-revocation id, the method name and the
    link-secret id come from the side-table entry; the credential-definition
    id, the schema id and the revocation-registry id are those of the
    record's own tag mapping, which the extractor's filter leaves as they
    are.  The link-secret and method tags are checked but not returned. *)
Theorem w3c_projection_value r s entry :
  W3cVerifiableCredential.credentialSubject (W3cCredentialRecord.credential r)
  = SingleSubject s →
  anoncredsMetadata r = Some entry →
  (∀ k, k ∈ requiredTagKeys →
        truthy (prop (W3cCredentialRecord.getTags r) k) = true) →
  getAnoncredsCredentialInfoFromRecord (IsW3cCredentialRecord r)
  = Return (w3cInfo r s entry).
Proof.
  intros Hs Hentry Hrequired. simpl.
  apply w3c_projection_run; [done..|].
  by apply requiredTagMissing_false.
Qed.

(** X3.  The only ways the projector fails: a standards-based record is
    rejected with one of the two [CredoError]s for a malformed subject and
    for missing tags, a native record with a [TypeError]; the native
    projection raises no [CredoError] and the standards-based one no
    [TypeError]. *)
Theorem projection_failure_modes (record : CredentialRecord) e :
  getAnoncredsCredentialInfoFromRecord record = Throw e →
  match record with
  | IsW3cCredentialRecord _ =>
      e = MalformedCredentialSubject ∨ e = MissingTags
  | IsAnonCredsCredentialRecord _ => e = TypeError
  end.
Proof.
  destruct record as [r|r]; simpl.
  - unfold anoncredsCredentialInfoFromW3cRecord, getAnonCredsTagsFromRecord.
    destruct (W3cVerifiableCredential.credentialSubject _);
      [|intros [= <-]; by left].
    destruct (anoncredsMetadata r); [|intros [= <-]; by right].
    destruct (requiredTagMissing _); [intros [= <-]; by right|done].
  - unfold anoncredsCredentialInfoFromAnoncredsRecord.
    set (values := AnonCredsCredential.values _).
    set (keys := AnonCredsCredential.keys _).
    destruct (decide (covered values keys)) as [Hcov|Hcov].
    + destruct (collectAttributes_covered values keys ∅ Hcov)
        as (attributes & -> & _).
      done.
    + rewrite (collectAttributes_uncovered values keys ∅ Hcov).
      by intros [= <-].
Qed.

(** X4.  In an info the projector returns, for either kind of record, the
    credential-revocation id and the revocation-registry id are never
    [undefined]: what is missing is [null]. *)
Theorem projected_revocation_fields_never_undefined
    (record : CredentialRecord) info :
  getAnoncredsCredentialInfoFromRecord record = Return info →
  AnonCredsCredentialInfo.credentialRevocationId info ≠ JUndefined ∧
  AnonCredsCredentialInfo.revocationRegistryId info ≠ JUndefined.
Proof.
  destruct record as [r|r]; simpl.
  - intros (s & entry & _ & _ & _ & ->)%w3c_projection_inv. simpl. split.
    + by destruct (W3cAnoncredsCredentialMetadata.credentialRevocationId _).
    + by destruct (prop _ _).
  - unfold anoncredsCredentialInfoFromAnoncredsRecord.
    destruct (collectAttributes _ _ _); [|done].
    simpl. intros [= <-]. simpl. split.
    + by destruct (AnonCredsCredentialRecord.credentialRevocationId _).
    + by destruct (AnonCredsCredential.rev_reg_id _).
Qed.

(** X5.  In an info returned for a standards-based record the
    credential-definition id and the schema id are truthy: the required-tag
    test has seen to it that they are neither missing nor empty. *)
Theorem w3c_projected_ids_truthy r info :
  getAnoncredsCredentialInfoFromRecord (IsW3cCredentialRecord r)
  = Return info →
  truthy (AnonCredsCredentialInfo.credentialDefinitionId info) = true ∧
  truthy (AnonCredsCredentialInfo.schemaId info) = true.
Proof.
  simpl. intros (s & entry & _ & _ & Hrequired & ->)%w3c_projection_inv.
  rewrite requiredTagMissing_false in Hrequired. simpl. split.
  - apply Hrequired. unfold requiredTagKeys.
    do 6 (apply elem_of_cons; right). by apply elem_of_cons; left.
  - apply Hrequired. unfold requiredTagKeys.
    do 2 (apply elem_of_cons; right). by apply elem_of_cons; left.
Qed.

(** X6.  A tag mapping the extractor returns holds each of the seven
    required keys, with the value the record has for it, and that value is
    truthy. *)
Theorem extractor_keeps_required_tags r tags :
  getAnonCredsTagsFromRecord r = Some tags →
  ∀ k, k ∈ requiredTagKeys →
       is_Some (tags !! k) ∧
       tags !! k = W3cCredentialRecord.getTags r !! k ∧
       truthy (prop tags k) = true.
Proof.
  unfold getAnonCredsTagsFromRecord.
  destruct (anoncredsMetadata r); [|done].
  destruct (requiredTagMissing _) eqn:Hrequired; [done|].
  intros [= <-] k Hk.
  rewrite requiredTagMissing_false in Hrequired.
  specialize (Hrequired k Hk).
  fold (anonCredsPart (W3cCredentialRecord.getTags r)).
  assert (∃ v, W3cCredentialRecord.getTags r !! k = Some v) as [v Hv].
  { unfold prop in Hrequired.
    destruct (W3cCredentialRecord.getTags r !! k) as [v|]; [by exists v|done]. }
  assert (anonCredsPart (W3cCredentialRecord.getTags r) !! k = Some v)
    as Hpart.
  { apply anonCredsPart_lookup. split; [done|].
    by apply required_keys_prefixed. }
  split; [by eexists|]. split; [by rewrite Hpart, Hv|].
  by rewrite prop_anonCredsPart by by apply required_keys_prefixed.
Qed.

(** X7.  Extraction is idempotent: on the record with the extracted tags as
    its tag mapping the extractor returns those same tags. *)
Theorem extractor_idempotent r tags :
  getAnonCredsTagsFromRecord r = Some tags →
  getAnonCredsTagsFromRecord (withTags r tags) = Some tags.
Proof.
  unfold getAnonCredsTagsFromRecord, anoncredsMetadata, withTags. simpl.
  destruct (W3cCredentialRecord.metadata r !! _); [|done].
  destruct (requiredTagMissing (W3cCredentialRecord.getTags r))
    eqn:Hrequired; [done|].
  intros [= <-].
  fold (anonCredsPart (W3cCredentialRecord.getTags r)).
  assert (requiredTagMissing (anonCredsPart (W3cCredentialRecord.getTags r))
          = false) as ->.
  { apply requiredTagMissing_false. intros k Hk.
    rewrite prop_anonCredsPart by by apply required_keys_prefixed.
    by apply requiredTagMissing_false. }
  f_equal. apply map_eq. intros k.
  apply option_eq. intros v.
  fold (anonCredsPart (anonCredsPart (W3cCredentialRecord.getTags r))).
  rewrite !anonCredsPart_lookup. tauto.
Qed.

End FurtherProjection.

Section FurtherNativeProjection.
Context `{Imports}.

(** The loop's outcome depends on which names are enumerated, not on their
    order or on repetitions. *)
Lemma collectAttributes_same_names
    (values : gmap string AnonCredsCredentialValue.t)
    (keys keys' : list string) (attributes : gmap string ClaimValue) :
  (∀ k, k ∈ keys ↔ k ∈ keys') →
  collectAttributes values keys attributes
  = collectAttributes values keys' attributes.
Proof.
  intros Hsame.
  assert (covered values keys ↔ covered values keys') as Hcovered.
  { unfold covered. rewrite !Forall_forall.
    split; intros Hall k Hk; apply Hall; by apply Hsame. }
  destruct (decide (covered values keys)) as [Hcov|Hcov].
  - destruct (collectAttributes_covered values keys attributes Hcov)
      as (result & -> & Hlook).
    apply Hcovered in Hcov.
    destruct (collectAttributes_covered values keys' attributes Hcov)
      as (result' & -> & Hlook').
    f_equal. apply map_eq. intros k. rewrite Hlook, Hlook'.
    destruct (decide (k ∈ keys)) as [Hin|Hnin].
    + rewrite decide_True; [done|]. by apply Hsame.
    + rewrite decide_False; [done|]. intros Hin. by apply Hnin, Hsame.
  - rewrite (collectAttributes_uncovered values keys attributes Hcov).
    rewrite Hcovered in Hcov.
    by rewrite (collectAttributes_uncovered values keys' attributes Hcov).
Qed.

(** X8.  The native projection does not depend on the order in which the
    credential object's properties are enumerated, nor on a name being
    enumerated twice: two records that differ only in that have the same
    projection, be it an info or the fault. *)
Theorem native_projection_order_irrelevant
    (r : AnonCredsCredentialRecord.t) (others : list string) :
  (∀ k, k ∈ AnonCredsCredential.other_keys
              (AnonCredsCredentialRecord.credential r) ↔ k ∈ others) →
  getAnoncredsCredentialInfoFromRecord
    (IsAnonCredsCredentialRecord (withOtherKeys r others))
  = getAnoncredsCredentialInfoFromRecord (IsAnonCredsCredentialRecord r).
Proof.
  intros Hsame.
  unfold getAnoncredsCredentialInfoFromRecord,
    anoncredsCredentialInfoFromAnoncredsRecord.
  cbv zeta.
  rewrite (collectAttributes_same_names _
             (AnonCredsCredential.keys
                (AnonCredsCredentialRecord.credential (withOtherKeys r others)))
             (AnonCredsCredential.keys
                (AnonCredsCredentialRecord.credential r))); [done|].
  intros k. unfold AnonCredsCredential.keys, withOtherKeys. simpl.
  destruct (AnonCredsCredential.rev_reg_id _); simpl;
    rewrite !elem_of_cons, Hsame; tauto.
Qed.

End FurtherNativeProjection.

(** ** The tag deriver *)

Section FurtherTagDeriver.
Context `{Imports}.

Implicit Types (options : TagOptions.t) (tags : gmap string JsValue).

Lemma attrValueKey_prefixed a : startsWithAnonCreds (attrValueKey a) = true.
Proof. reflexivity. Qed.

Lemma attrMarkerKey_prefixed a : startsWithAnonCreds (attrMarkerKey a) = true.
Proof. reflexivity. Qed.

Lemma fixed_keys_prefixed k :
  k ∈ fixedTagKeys → startsWithAnonCreds k = true.
Proof.
  unfold fixedTagKeys, requiredTagKeys, revocationTagKeys,
    unqualifiedTagKeys. simpl. intros Hk.
  repeat (apply elem_of_cons in Hk as [->|Hk]; [reflexivity|]).
  by apply elem_of_nil in Hk.
Qed.

Lemma fixedTagKeys_NoDup : NoDup fixedTagKeys.
Proof. apply (bool_decide_unpack _). by vm_compute. Qed.

(** What a returned tag set is made of. *)
Lemma deriver_inv options tags :
  getW3cRecordAnonCredsTags options = Return tags →
  ∃ s extra,
    subjectOf options = SingleSubject s ∧
    unqualifiedTags (issuerOf options) options = Return extra ∧
    tags = addAttributeTags (spread (structuralTags options) extra)
             (mapAttributeRawValuesToAnonCredsCredentialValues
                (claimsOf options)).
Proof.
  intros Hrun.
  destruct (subjectOf options) as [s|l] eqn:Hs.
  - destruct (unqualifiedTags (issuerOf options) options)
      as [extra|e] eqn:Hextra.
    + rewrite (deriver_returns options s extra Hs Hextra) in Hrun.
      injection Hrun as <-. by exists s, extra.
    + unfold getW3cRecordAnonCredsTags in Hrun.
      fold (issuerOf options) in Hrun. by rewrite Hextra in Hrun.
  - destruct (deriver_rejects_array options l Hs) as [Hnot _].
    exfalso. apply Hnot. by exists tags.
Qed.

Lemma unqualifiedTags_returns_inv options :
  returns (unqualifiedTags (issuerOf options) options) →
  mirrorableIds options.
Proof.
  intros [extra [[Hno _]|[_ Hextra]]%unqualifiedTags_inv] Hindy;
    [congruence|].
  destruct Hextra
    as (u1 & u2 & u3 & u4 & v5 & H1 & H2 & H3 & H4 & H5 & _).
  split; [by eexists|]. split; [by eexists|].
  split; [by eexists|]. split; [by eexists|].
  intros registry Hregistry Htruthy.
  apply unqualifiedRevocationRegistryId_inv in H5.
  unfold revocationRegistryPresent in H5.
  rewrite Hregistry, Htruthy in H5.
  destruct H5 as (r & u & [= <-] & Hu & _). by eexists.
Qed.

(** The keys of the object literal after the spread are fixed keys. *)
Lemma spread_keys_fixed options extra k :
  unqualifiedTags (issuerOf options) options = Return extra →
  k ∈ dom (spread (structuralTags options) extra) → k ∈ fixedTagKeys.
Proof.
  intros Hextra. rewrite (spread_dom options extra Hextra).
  unfold fixedTagKeys. rewrite !elem_of_app.
  intros [[Hk|Hk]%elem_of_union|Hk]%elem_of_union.
  - left. by apply elem_of_list_to_set in Hk.
  - right; left. by apply elem_of_list_to_set in Hk.
  - right; right. destruct (isIndyDid (issuerOf options)).
    + by apply elem_of_list_to_set in Hk.
    + by apply not_elem_of_empty in Hk.
Qed.

(** X9.  The deriver returns a tag set exactly on the valid contexts: the
    subject is a single object and, when the issuer id is an indy DID, the
    unqualifying helper returns on each identifier to be mirrored.  When the
    issuer id is not an indy DID the helper is not consulted at all. *)
Theorem deriver_returns_iff_valid options :
  returns (getW3cRecordAnonCredsTags options) ↔ validContext options.
Proof.
  split.
  - intros [tags (s & extra & Hs & Hextra & _)%deriver_inv].
    split; [by exists s|].
    apply unqualifiedTags_returns_inv. by exists extra.
  - intros [[s Hs] [extra Hextra]%unqualifiedTags_returns].
    eexists. by apply (deriver_returns options s extra).
Qed.

Lemma derived_dom_prefixed options tags k :
  getW3cRecordAnonCredsTags options = Return tags →
  k ∈ dom tags → startsWithAnonCreds k = true.
Proof.
  intros (s & extra & _ & Hextra & ->)%deriver_inv.
  rewrite addAttributeTags_dom.
  intros [[Hk|Hk]%elem_of_union|Hk]%elem_of_union.
  - apply fixed_keys_prefixed. by eapply spread_keys_fixed.
  - apply elem_of_map in Hk as (a & -> & _). apply attrValueKey_prefixed.
  - apply elem_of_map in Hk as (a & -> & _). apply attrMarkerKey_prefixed.
Qed.

(** X10.  Every key of a derived tag set begins with [anonCreds], so the
    extractor's filter drops none of the tags the deriver wrote. *)
Theorem derived_keys_prefixed options tags :
  getW3cRecordAnonCredsTags options = Return tags →
  (∀ k, k ∈ dom tags → startsWithAnonCreds k = true) ∧
  anonCredsPart tags = tags.
Proof.
  intros Hrun.
  assert (∀ k, k ∈ dom tags → startsWithAnonCreds k = true) as Hprefixed
    by (intros k; by apply (derived_dom_prefixed options)).
  split; [exact Hprefixed|].
  apply map_eq. intros k. apply option_eq. intros v.
  rewrite anonCredsPart_lookup. split; [by intros [? _]|].
  intros Hv. split; [done|]. apply Hprefixed. apply elem_of_dom. by eexists.
Qed.

(** X11.  The tag keys of attributes do not collide: different attribute
    names give different [::value] keys and different [::marker] keys, a
    [::value] key is never a [::marker] key, whatever the names, and neither
    is ever one of the structural or mirror keys.  No claim name can make the
    loop overwrite another tag. *)
Theorem attribute_keys_collision_free :
  (∀ a b, attrValueKey a = attrValueKey b → a = b) ∧
  (∀ a b, attrMarkerKey a = attrMarkerKey b → a = b) ∧
  (∀ a b, attrValueKey a ≠ attrMarkerKey b) ∧
  (∀ a k, k ∈ fixedTagKeys → k ≠ attrValueKey a ∧ k ≠ attrMarkerKey a).
Proof.
  split; [exact attrValueKey_inj|]. split; [exact attrMarkerKey_inj|].
  split; [exact attrValueKey_not_marker|].
  intros a k Hk. apply fixedTagKeys_not_attr in Hk.
  split; intros ->.
  - by rewrite attrValueKey_isAttrKey in Hk.
  - by rewrite attrMarkerKey_isAttrKey in Hk.
Qed.

Lemma writePairs_size
    (l : list (string * AnonCredsCredentialValue.t)) tags :
  NoDup l.*1 →
  (∀ a, a ∈ l.*1 →
        tags !! attrValueKey a = None ∧ tags !! attrMarkerKey a = None) →
  size (foldl writePair tags l) = size tags + 2 * length l.
Proof.
  revert tags. induction l as [|[a v] l IH]; intros tags Hnd Hfresh.
  - simpl. lia.
  - simpl in Hnd. apply NoDup_cons in Hnd as [Ha Hnd].
    destruct (Hfresh a) as [Hvalue Hmarker]; [by left|].
    simpl. rewrite IH; [|done|].
    + unfold writePair. simpl.
      rewrite map_size_insert_None.
      * rewrite map_size_insert_None by done. lia.
      * rewrite lookup_insert_ne; [done|].
        apply attrValueKey_not_marker.
    + intros b Hb.
      assert (b ≠ a) as Hne by (intros ->; done).
      destruct (Hfresh b) as [Hbvalue Hbmarker]; [by right|].
      unfold writePair. simpl. split.
      * rewrite lookup_insert_ne
          by (intros Habs; by apply (attrValueKey_not_marker b a)).
        rewrite lookup_insert_ne; [done|].
        intros Habs%attrValueKey_inj. by subst.
      * rewrite lookup_insert_ne
          by (intros Habs%attrMarkerKey_inj; by subst).
        rewrite lookup_insert_ne; [done|].
        apply attrValueKey_not_marker.
Qed.

(** X12.  The size of a derived tag set: nine structural tags, five more
    when the issuer id is an indy DID, and two for each claim of the
    subject. *)
Theorem derived_tag_count options tags :
  getW3cRecordAnonCredsTags options = Return tags →
  size tags
  = 9 + (if isIndyDid (issuerOf options) then 5 else 0)
      + 2 * size (claimsOf options).
Proof.
  intros (s & extra & _ & Hextra & ->)%deriver_inv.
  rewrite addAttributeTags_foldl, writePairs_size.
  - rewrite length_map_to_list.
    unfold mapAttributeRawValuesToAnonCredsCredentialValues.
    rewrite map_size_fmap. f_equal.
    rewrite <- size_dom, (spread_dom options extra Hextra).
    destruct (isIndyDid (issuerOf options)).
    + rewrite <- !list_to_set_app_L, size_list_to_set; [done|].
      rewrite <- (assoc_L (++)%list). apply fixedTagKeys_NoDup.
    + rewrite (right_id_L ∅ (∪)).
      rewrite <- !list_to_set_app_L, size_list_to_set; [done|].
      apply (bool_decide_unpack _). by vm_compute.
  - apply NoDup_fst_map_to_list.
  - intros a _.
    split; apply not_elem_of_dom; intros Hk;
      apply (spread_keys_fixed options extra _ Hextra) in Hk;
      apply fixedTagKeys_not_attr in Hk.
    + by rewrite attrValueKey_isAttrKey in Hk.
    + by rewrite attrMarkerKey_isAttrKey in Hk.
Qed.

Ltac in_fixed :=
  unfold fixedTagKeys, requiredTagKeys, revocationTagKeys,
    unqualifiedTagKeys; simpl;
  repeat first [ by apply elem_of_cons; left | apply elem_of_cons; right ].

Ltac literal_lookup :=
  unfold structuralTags, objectLiteral; simpl;
  repeat first
    [ rewrite lookup_insert_eq
    | rewrite lookup_insert_ne by done ];
  try done.

(** The structural tags of a returned tag set. *)
Lemma derived_structural_lookup options tags k :
  getW3cRecordAnonCredsTags options = Return tags →
  k ∈ (requiredTagKeys ++ revocationTagKeys)%list →
  tags !! k = structuralTags options !! k.
Proof.
  intros (s & extra & _ & Hextra & ->)%deriver_inv Hk.
  rewrite derived_lookup_fixed by by apply structural_keys_fixed.
  by apply spread_keeps_structural.
Qed.

Lemma non_empty_truthy x : x ≠ "" → truthy (JString x) = true.
Proof. intros Hx. simpl. apply negb_true_iff. by apply String.eqb_neq. Qed.

(** X13.  Deriving and projecting compose.  Take the tags derived from a
    context whose seven required strings are not empty, and a record of the
    same credential whose tag mapping holds exactly these tags under the
    [anonCreds]-prefixed keys (and anything under other keys) and which has
    its side-table entry.  Then the extractor returns the derived tags, and
    the projection returns the claims of the subject, the
    credential-definition id, schema id and revocation-registry id of the
    context ([null] without one) and the fields of the side-table entry. *)
Theorem derived_tags_project_back options tags
    (r : W3cCredentialRecord.t) entry :
  getW3cRecordAnonCredsTags options = Return tags →
  requiredStringsNonEmpty options →
  W3cCredentialRecord.credential r
  = W3cCredentialRecord.credential (TagOptions.w3cCredentialRecord options) →
  carriesTags r tags →
  anoncredsMetadata r = Some entry →
  getAnonCredsTagsFromRecord r = Some tags ∧
  getAnoncredsCredentialInfoFromRecord (IsW3cCredentialRecord r)
  = Return (derivedInfo options entry).
Proof.
  intros Hrun Hnonempty Hcredential Hcarries Hentry.
  destruct Hnonempty as (Hn1 & Hn2 & Hn3 & Hn4 & Hn5 & Hn6 & Hn7).
  assert (∀ k, k ∈ (requiredTagKeys ++ revocationTagKeys)%list →
               W3cCredentialRecord.getTags r !! k
               = structuralTags options !! k) as Hstructural.
  { intros k Hk. rewrite Hcarries.
    - by apply (derived_structural_lookup options).
    - apply fixed_keys_prefixed. by apply structural_keys_fixed. }
  assert (∀ k, k ∈ requiredTagKeys →
               truthy (prop (W3cCredentialRecord.getTags r) k) = true)
    as Hrequired.
  { intros k Hk. unfold prop. rewrite Hstructural
      by (apply elem_of_app; by left).
    unfold requiredTagKeys in Hk.
    repeat (apply elem_of_cons in Hk as [->|Hk];
            [literal_lookup; by apply non_empty_truthy|]).
    by apply elem_of_nil in Hk. }
  assert (anonCredsPart (W3cCredentialRecord.getTags r) = tags) as Hpart.
  { apply map_eq. intros k. apply option_eq. intros v.
    rewrite anonCredsPart_lookup. split.
    - intros [Hv Hk]. by rewrite <- Hcarries.
    - intros Hv.
      assert (startsWithAnonCreds k = true) as Hk.
      { apply (derived_dom_prefixed options tags); [done|].
        apply elem_of_dom. by eexists. }
      split; [|done]. by rewrite Hcarries. }
  split.
  - rewrite extractor_with_all_truthy; [by rewrite Hpart|by eexists|done].
  - apply deriver_inv in Hrun as (s & extra & Hs & _ & _).
    simpl. unfold subjectOf in Hs. rewrite <- Hcredential in Hs.
    rewrite (w3c_projection_run r s entry Hs Hentry)
      by by apply requiredTagMissing_false.
    f_equal. unfold w3cInfo, derivedInfo, claimsOf, subjectOf, prop.
    rewrite <- Hcredential, Hs.
    rewrite !Hstructural by in_fixed.
    f_equal; literal_lookup.
    by destruct (TagOptions.revocationRegistryId options).
Qed.

End FurtherTagDeriver.

(** ** Store-time normalisation *)

Section FurtherStoreNormalisation.
Context `{Imports}.

Implicit Types (options : StoreCredentialOptions.t)
  (indyNamespace : option string).

Lemma qualifyIf_rewrittenTo {A} (cond : A → bool) rewrite indyNamespace
    (x x' : A) :
  qualifyIf cond rewrite indyNamespace x = Return x' ↔
  rewrittenTo cond rewrite indyNamespace x x'.
Proof.
  unfold qualifyIf, rewrittenTo. destruct (cond x); [done|].
  split; [by intros [= ->]|by intros ->].
Qed.

(** What a returned value of the normalisation is made of. *)
Lemma getStoreCredentialOptions_inv uuid options indyNamespace options' :
  getStoreCredentialOptions uuid options indyNamespace = Return options' →
  ∃ credentialDefinitionId credentialDefinition schema revocationRegistry,
    qualifyIf isUnqualifiedCredentialDefinitionId getQualifiedDidIndyDid
      indyNamespace (StoreCredentialOptions.credentialDefinitionId options)
    = Return credentialDefinitionId ∧
    qualifyIf isUnqualifiedDidIndyCredentialDefinition
      getQualifiedDidIndyCredentialDefinition
      indyNamespace (StoreCredentialOptions.credentialDefinition options)
    = Return credentialDefinition ∧
    qualifyIf isUnqualifiedDidIndySchema getQualifiedDidIndySchema
      indyNamespace (StoreCredentialOptions.schema options)
    = Return schema ∧
    match StoreCredentialOptions.revocationRegistry options with
    | None => revocationRegistry = None
    | Some given =>
        ∃ definition id,
          qualifyIf isUnqualifiedDidIndyRevocationRegistryDefinition
            getQualifiedDidIndyRevocationRegistryDefinition
            indyNamespace (RevocationRegistry.definition given)
          = Return definition ∧
          qualifyIf isUnqualifiedRevocationRegistryId getQualifiedDidIndyDid
            indyNamespace (RevocationRegistry.id given)
          = Return id ∧
          revocationRegistry
          = Some {| RevocationRegistry.definition := definition;
                    RevocationRegistry.id := id |}
    end ∧
    options'
    = {| StoreCredentialOptions.credentialId := Some uuid;
         StoreCredentialOptions.credentialRequestMetadata :=
           StoreCredentialOptions.credentialRequestMetadata options;
         StoreCredentialOptions.credential :=
           StoreCredentialOptions.credential options;
         StoreCredentialOptions.credentialDefinitionId :=
           credentialDefinitionId;
         StoreCredentialOptions.credentialDefinition := credentialDefinition;
         StoreCredentialOptions.schema := schema;
         StoreCredentialOptions.revocationRegistry := revocationRegistry |}.
Proof.
  unfold getStoreCredentialOptions.
  destruct (qualifyIf isUnqualifiedCredentialDefinitionId _ _ _)
    as [credentialDefinitionId|]; [|done].
  destruct (qualifyIf isUnqualifiedDidIndyCredentialDefinition _ _ _)
    as [credentialDefinition|]; [|done].
  destruct (qualifyIf isUnqualifiedDidIndySchema _ _ _)
    as [schema|]; [|done].
  simpl.
  destruct (StoreCredentialOptions.revocationRegistry options) as [given|].
  - destruct (qualifyIf isUnqualifiedDidIndyRevocationRegistryDefinition
                _ _ _) as [definition|]; [|done].
    destruct (qualifyIf isUnqualifiedRevocationRegistryId _ _ _)
      as [id|]; [|done].
    simpl. intros [= <-].
    eexists _, _, _, _. repeat split; try reflexivity.
    by exists definition, id.
  - simpl. intros [= <-].
    eexists _, _, _, _. by repeat split.
Qed.

(** X14.  Whatever is rewritten, a returned value of the normalisation has
    the freshly drawn uuid as its credential id, a credential id given by
    the caller is not kept; the credential and the request metadata are
    passed through; and it has a revocation registry exactly when the
    options had one. *)
Theorem store_normalisation_passthrough uuid options indyNamespace options' :
  getStoreCredentialOptions uuid options indyNamespace = Return options' →
  StoreCredentialOptions.credentialId options' = Some uuid ∧
  StoreCredentialOptions.credentialRequestMetadata options'
  = StoreCredentialOptions.credentialRequestMetadata options ∧
  StoreCredentialOptions.credential options'
  = StoreCredentialOptions.credential options ∧
  (is_Some (StoreCredentialOptions.revocationRegistry options') ↔
   is_Some (StoreCredentialOptions.revocationRegistry options)).
Proof.
  intros (cdi & cd & sch & rr & _ & _ & _ & Hrr & ->)
    %getStoreCredentialOptions_inv.
  simpl. repeat split; try done.
  - destruct (StoreCredentialOptions.revocationRegistry options);
      [by eexists|]. subst rr. by intros [? ?].
  - destruct (StoreCredentialOptions.revocationRegistry options);
      [|by intros [? ?]].
    destruct Hrr as (definition & id & _ & _ & ->). by eexists.
Qed.

(** X15.  In a returned value of the normalisation each of the five
    identifier-carrying fields (the credential-definition id, the
    credential definition, the schema, and the definition and the id of the
    revocation registry) is the given one when that is not recognised as
    unqualified, and otherwise what the qualifying helper returned for it
    and the namespace. *)
Theorem store_normalisation_rewrites uuid options indyNamespace options' :
  getStoreCredentialOptions uuid options indyNamespace = Return options' →
  rewrittenTo isUnqualifiedCredentialDefinitionId getQualifiedDidIndyDid
    indyNamespace
    (StoreCredentialOptions.credentialDefinitionId options)
    (StoreCredentialOptions.credentialDefinitionId options') ∧
  rewrittenTo isUnqualifiedDidIndyCredentialDefinition
    getQualifiedDidIndyCredentialDefinition indyNamespace
    (StoreCredentialOptions.credentialDefinition options)
    (StoreCredentialOptions.credentialDefinition options') ∧
  rewrittenTo isUnqualifiedDidIndySchema getQualifiedDidIndySchema
    indyNamespace
    (StoreCredentialOptions.schema options)
    (StoreCredentialOptions.schema options') ∧
  ∀ given,
    StoreCredentialOptions.revocationRegistry options = Some given →
    ∃ kept,
      StoreCredentialOptions.revocationRegistry options' = Some kept ∧
      rewrittenTo isUnqualifiedDidIndyRevocationRegistryDefinition
        getQualifiedDidIndyRevocationRegistryDefinition indyNamespace
        (RevocationRegistry.definition given)
        (RevocationRegistry.definition kept) ∧
      rewrittenTo isUnqualifiedRevocationRegistryId getQualifiedDidIndyDid
        indyNamespace
        (RevocationRegistry.id given) (RevocationRegistry.id kept).
Proof.
  intros (cdi & cd & sch & rr & Hcdi & Hcd & Hsch & Hrr & ->)
    %getStoreCredentialOptions_inv.
  simpl. split; [by apply qualifyIf_rewrittenTo|].
  split; [by apply qualifyIf_rewrittenTo|].
  split; [by apply qualifyIf_rewrittenTo|].
  intros given Hgiven. rewrite Hgiven in Hrr.
  destruct Hrr as (definition & id & Hdefinition & Hid & ->).
  eexists. split; [reflexivity|]. simpl.
  split; by apply qualifyIf_rewrittenTo.
Qed.

(** X16.  The normalisation returns exactly when each of the conditional
    rewrites it performs returns; when one of them throws, no options are
    returned. *)
Theorem store_normalisation_returns_iff uuid options indyNamespace :
  returns (getStoreCredentialOptions uuid options indyNamespace) ↔
  rewritesReturn indyNamespace options.
Proof.
  split.
  - intros [options' (cdi & cd & sch & rr & Hcdi & Hcd & Hsch & Hrr & _)
      %getStoreCredentialOptions_inv].
    split; [by eexists|]. split; [by eexists|]. split; [by eexists|].
    intros given Hgiven. rewrite Hgiven in Hrr.
    destruct Hrr as (definition & id & Hdefinition & Hid & _).
    split; by eexists.
  - intros ([cdi Hcdi] & [cd Hcd] & [sch Hsch] & Hrr).
    unfold getStoreCredentialOptions. rewrite Hcdi, Hcd, Hsch. simpl.
    destruct (StoreCredentialOptions.revocationRegistry options)
      as [given|]; [|by eexists].
    destruct (Hrr given eq_refl) as [[definition ->] [id ->]].
    by eexists.
Qed.

(** X17.  On options none of whose identifier-carrying fields is recognised
    as unqualified the normalisation changes nothing but the credential id,
    which becomes the fresh uuid, and the namespace plays no part: it may
    be any string or be left out. *)
Theorem store_normalisation_fixpoint uuid options indyNamespace :
  qualifiedIds options →
  qualifiedDefinition options →
  getStoreCredentialOptions uuid options indyNamespace
  = Return (withCredentialId uuid options).
Proof.
  intros (Hid & Hschema & Hdef & Hrev) Hdefinition.
  unfold getStoreCredentialOptions, withCredentialId.
  rewrite (qualifyIf_skips _ _ _ _ Hid), (qualifyIf_skips _ _ _ _ Hschema),
    (qualifyIf_skips _ _ _ _ Hdef).
  simpl.
  destruct (StoreCredentialOptions.revocationRegistry options)
    as [given|] eqn:Hgiven; [|done].
  rewrite (qualifyIf_skips _ _ _ _ (Hdefinition given Hgiven)),
    (qualifyIf_skips _ _ _ _ (Hrev given eq_refl)).
  simpl. by destruct given.
Qed.

End FurtherStoreNormalisation.

(** ** Which error the deriver raises *)

Section DeriverErrors.
Context `{Imports}.

Implicit Types (options : TagOptions.t).

(** With an indy issuer the guarded spread throws exactly the error of the
    first mirrored identifier the helper rejects. *)
Lemma unqualifiedTags_first_error options e :
  isIndyDid (issuerOf options) = true →
  unqualifiedTags (issuerOf options) options = Throw e ↔
  firstUnqualifyError options e.
Proof.
  intros Hindy.
  unfold unqualifiedTags, unqualifiedRevocationRegistryId,
    firstUnqualifyError, mirroredIds.
  rewrite Hindy.
  set (i1 := issuerOf options).
  set (i2 := TagOptions.credentialDefinitionId options).
  set (i3 := TagOptions.schemaId options).
  set (i4 := AnonCredsSchema.issuerId (TagOptions.schema options)).
  set (rest :=
    match TagOptions.revocationRegistryId options with
    | Some registry => if truthy (JString registry) then [registry] else []
    | None => []
    end).
  assert (∀ u1 u2 u3 u4,
    (match TagOptions.revocationRegistryId options with
     | Some r =>
         if truthy (JString r)
         then u ← getUnQualifiedDidIndyDid r; Return (JString u)
         else Return JUndefined
     | None => Return JUndefined
     end ≫= λ revocationRegistry,
       Return
         (Some
            [ ("anonCredsUnqualifiedIssuerId", JString u1);
              ("anonCredsUnqualifiedCredentialDefinitionId", JString u2);
              ("anonCredsUnqualifiedSchemaId", JString u3);
              ("anonCredsUnqualifiedSchemaIssuerId", JString u4);
              ("anonCredsUnqualifiedRevocationRegistryId",
                revocationRegistry) ])) = Throw e ↔
    ∃ registry, rest = [registry] ∧
                getUnQualifiedDidIndyDid registry = Throw e) as Hrest.
  { intros u1 u2 u3 u4. unfold rest.
    destruct (TagOptions.revocationRegistryId options) as [registry|].
    - destruct (truthy (JString registry)).
      + destruct (getUnQualifiedDidIndyDid registry) as [u5|e5] eqn:H5.
        * split; [done|]. intros (r & [= <-] & Hr). congruence.
        * split.
          -- intros [= <-]. by exists registry.
          -- intros (r & [= <-] & Hr). simpl. congruence.
      + split; [done|]. by intros (r & Hr & _).
    - split; [done|]. by intros (r & Hr & _). }
  split.
  - destruct (getUnQualifiedDidIndyDid i1) as [u1|e1] eqn:H1.
    2: { intros [= <-]. exists [], i1, (i2 :: i3 :: i4 :: rest).
         by repeat split. }
    destruct (getUnQualifiedDidIndyDid i2) as [u2|e2] eqn:H2.
    2: { intros [= <-]. exists [i1], i2, (i3 :: i4 :: rest).
         split; [reflexivity|]. split; [|done].
         repeat constructor. by eexists. }
    destruct (getUnQualifiedDidIndyDid i3) as [u3|e3] eqn:H3.
    2: { intros [= <-]. exists [i1; i2], i3, (i4 :: rest).
         split; [reflexivity|]. split; [|done].
         repeat constructor; by eexists. }
    destruct (getUnQualifiedDidIndyDid i4) as [u4|e4] eqn:H4.
    2: { intros [= <-]. exists [i1; i2; i3], i4, rest.
         split; [reflexivity|]. split; [|done].
         repeat constructor; by eexists. }
    intros (registry & Hregistry & Hthrow)%Hrest.
    exists [i1; i2; i3; i4], registry, [].
    split; [by rewrite Hregistry|]. split; [|done].
    repeat constructor; by eexists.
  - intros (before & identifier & after & Hids & Hbefore & Hthrow).
    destruct before as [|b1 before]; simpl in Hids.
    { injection Hids as <- _. by rewrite Hthrow. }
    injection Hids as <- Hids.
    apply Forall_cons in Hbefore as [[u1 ->] Hbefore].
    destruct before as [|b2 before]; simpl in Hids.
    { injection Hids as <- _. by rewrite Hthrow. }
    injection Hids as <- Hids.
    apply Forall_cons in Hbefore as [[u2 ->] Hbefore].
    destruct before as [|b3 before]; simpl in Hids.
    { injection Hids as <- _. by rewrite Hthrow. }
    injection Hids as <- Hids.
    apply Forall_cons in Hbefore as [[u3 ->] Hbefore].
    destruct before as [|b4 before]; simpl in Hids.
    { injection Hids as <- _. by rewrite Hthrow. }
    injection Hids as <- Hids.
    apply Forall_cons in Hbefore as [[u4 ->] Hbefore].
    apply Hrest. exists identifier. split; [|done].
    assert (length rest ≤ 1)%nat as Hlength.
    { unfold rest.
      destruct (TagOptions.revocationRegistryId options) as [registry|];
        [destruct (truthy (JString registry))|]; simpl; lia. }
    rewrite Hids in Hlength |- *.
    destruct before as [|b5 before].
    + destruct after; [done|]. simpl in Hlength. lia.
    + simpl in Hlength. rewrite length_app in Hlength.
      simpl in Hlength. lia.
Qed.

Lemma deriver_passes_error_on options e :
  unqualifiedTags (issuerOf options) options = Throw e →
  getW3cRecordAnonCredsTags options = Throw e.
Proof.
  intros Hthrow. unfold getW3cRecordAnonCredsTags.
  fold (issuerOf options). by rewrite Hthrow.
Qed.

(** Unacceptable identifiers make the guarded spread throw. *)
Lemma not_mirrorable_throws options :
  ¬ mirrorableIds options →
  isIndyDid (issuerOf options) = true ∧
  ∃ e, unqualifiedTags (issuerOf options) options = Throw e.
Proof.
  intros Hnot.
  destruct (isIndyDid (issuerOf options)) eqn:Hindy.
  - split; [done|].
    destruct (unqualifiedTags (issuerOf options) options)
      as [extra|e] eqn:Hextra; [|by exists e].
    exfalso. apply Hnot. apply unqualifiedTags_returns_inv. by exists extra.
  - exfalso. apply Hnot. intros Habs.
    unfold mirrorableIds in *. congruence.
Qed.

(** C6, amended.  A credential whose subject is an array is never indexed
    or projected by its first element.  The standards-based projection
    fails with [MalformedCredentialSubject].  The tag deriver returns no tag
    set: it fails with [MalformedCredentialSubject] when the issuer id is
    not an indy DID or the unqualifying helper returns on every identifier
    to be mirrored, and otherwise with the error the helper throws on the
    first identifier it rejects, since the identifiers are unqualified
    before the subject is looked at. *)
Theorem array_subject_is_rejected options l :
  subjectOf options = SubjectArray l →
  getAnoncredsCredentialInfoFromRecord
    (IsW3cCredentialRecord (TagOptions.w3cCredentialRecord options))
  = Throw MalformedCredentialSubject ∧
  ¬ returns (getW3cRecordAnonCredsTags options) ∧
  (mirrorableIds options →
   getW3cRecordAnonCredsTags options = Throw MalformedCredentialSubject) ∧
  (¬ mirrorableIds options →
   ∃ e, firstUnqualifyError options e ∧
        getW3cRecordAnonCredsTags options = Throw e).
Proof.
  intros Hs. split; [simpl; by eapply w3c_projection_of_array|].
  destruct (deriver_rejects_array options l Hs) as [Hnever Hmalformed].
  split; [exact Hnever|]. split; [exact Hmalformed|].
  intros [Hindy [e He]]%not_mirrorable_throws.
  exists e. split.
  - by apply unqualifiedTags_first_error.
  - by apply deriver_passes_error_on.
Qed.

(** X18.  The deriver unqualifies the identifiers before it looks at the
    subject: with an indy issuer, when the helper throws on one of the
    identifiers to be mirrored, the deriver fails with the error of the
    first of them that the helper rejects, whatever the subject is, an
    array included. *)
Theorem deriver_identifier_error_first options e :
  isIndyDid (issuerOf options) = true →
  firstUnqualifyError options e →
  getW3cRecordAnonCredsTags options = Throw e.
Proof.
  intros Hindy Hfirst.
  apply deriver_passes_error_on. by apply unqualifiedTags_first_error.
Qed.

End DeriverErrors.

(** ** The further properties on the sample records *)

Section FurtherRuns.
#[local] Existing Instance Sample.imports.

Ltac run := vm_compute; reflexivity.

Ltac required_truthy Hk :=
  unfold requiredTagKeys in Hk;
  repeat (apply elem_of_cons in Hk as [->|Hk]; [run|]);
  by apply elem_of_nil in Hk.

Lemma w3c_projection_returns_iff_witness :
  returns
    (getAnoncredsCredentialInfoFromRecord
       (IsW3cCredentialRecord Sample.w3cDegreeRecord)) ∧
  ¬ projectable Sample.w3cNoMetadataRecord.
Proof.
  split.
  - apply (w3c_projection_returns_iff Sample.w3cDegreeRecord).
    split; [by eexists|]. split; [by eexists|].
    intros k Hk. required_truthy Hk.
  - intros Hprojectable.
    apply (w3c_projection_returns_iff Sample.w3cNoMetadataRecord)
      in Hprojectable as [info Hinfo].
    vm_compute in Hinfo. discriminate.
Defined.

Lemma w3c_projection_value_witness :
  getAnoncredsCredentialInfoFromRecord
    (IsW3cCredentialRecord Sample.w3cDegreeRecord)
  = Return
      (w3cInfo Sample.w3cDegreeRecord Sample.aliceSubject
         Sample.degreeMetadata).
Proof.
  apply (w3c_projection_value Sample.w3cDegreeRecord); [run..|].
  intros k Hk. required_truthy Hk.
Defined.

Lemma projection_failure_modes_witness :
  (MalformedCredentialSubject = MalformedCredentialSubject ∨
   MalformedCredentialSubject = MissingTags) ∧
  TypeError = TypeError.
Proof.
  split.
  - apply (projection_failure_modes
             (IsW3cCredentialRecord Sample.w3cTwoSubjectRecord)). run.
  - apply (projection_failure_modes
             (IsAnonCredsCredentialRecord Sample.degreeRecord)). run.
Defined.

Lemma projected_revocation_fields_never_undefined_witness :
  ∃ info,
    getAnoncredsCredentialInfoFromRecord
      (IsW3cCredentialRecord Sample.w3cDegreeRecord) = Return info ∧
    AnonCredsCredentialInfo.credentialRevocationId info ≠ JUndefined ∧
    AnonCredsCredentialInfo.revocationRegistryId info ≠ JUndefined.
Proof.
  eexists. split; [run|].
  apply (projected_revocation_fields_never_undefined
           (IsW3cCredentialRecord Sample.w3cDegreeRecord)). run.
Defined.

Lemma w3c_projected_ids_truthy_witness :
  ∃ info,
    getAnoncredsCredentialInfoFromRecord
      (IsW3cCredentialRecord Sample.w3cDegreeRecord) = Return info ∧
    truthy (AnonCredsCredentialInfo.credentialDefinitionId info) = true ∧
    truthy (AnonCredsCredentialInfo.schemaId info) = true.
Proof.
  eexists. split; [run|].
  apply (w3c_projected_ids_truthy Sample.w3cDegreeRecord). run.
Defined.

Lemma extractor_keeps_required_tags_witness :
  ∃ tags,
    getAnonCredsTagsFromRecord Sample.w3cDegreeRecord = Some tags ∧
    is_Some (tags !! "anonCredsSchemaVersion").
Proof.
  eexists. split; [run|].
  apply (extractor_keeps_required_tags Sample.w3cDegreeRecord); [run|].
  unfold requiredTagKeys.
  do 4 (apply elem_of_cons; right). by apply elem_of_cons; left.
Defined.

Lemma extractor_idempotent_witness :
  ∃ tags,
    getAnonCredsTagsFromRecord Sample.w3cDegreeRecord = Some tags ∧
    getAnonCredsTagsFromRecord (withTags Sample.w3cDegreeRecord tags)
    = Some tags.
Proof.
  eexists. split; [run|].
  apply (extractor_idempotent Sample.w3cDegreeRecord). run.
Defined.

Lemma native_projection_order_irrelevant_witness :
  getAnoncredsCredentialInfoFromRecord
    (IsAnonCredsCredentialRecord
       (withOtherKeys Sample.coveredRecord ["values"; "schema_id"]))
  = getAnoncredsCredentialInfoFromRecord
      (IsAnonCredsCredentialRecord
         (withOtherKeys Sample.coveredRecord
            ["schema_id"; "values"; "schema_id"])).
Proof.
  apply (native_projection_order_irrelevant
           (withOtherKeys Sample.coveredRecord ["values"; "schema_id"])
           ["schema_id"; "values"; "schema_id"]).
  intros k. simpl. rewrite !elem_of_cons, elem_of_nil. tauto.
Defined.

Lemma deriver_returns_iff_valid_witness :
  returns
    (getW3cRecordAnonCredsTags (Sample.tagOptionsFor Sample.w3cDegreeRecord)) ∧
  ¬ validContext (Sample.tagOptionsFor Sample.w3cTwoSubjectRecord).
Proof.
  split.
  - apply (deriver_returns_iff_valid
             (Sample.tagOptionsFor Sample.w3cDegreeRecord)).
    split; [by eexists|].
    intros _. split_and!; [by eexists..|intros ? ?; discriminate].
  - intros Hvalid.
    apply (deriver_returns_iff_valid
             (Sample.tagOptionsFor Sample.w3cTwoSubjectRecord))
      in Hvalid as [tags Htags].
    vm_compute in Htags. discriminate.
Defined.

Lemma derived_keys_prefixed_witness :
  anonCredsPart
    (Stored.derivedTags (Sample.tagOptionsFor Sample.w3cDegreeRecord))
  = Stored.derivedTags (Sample.tagOptionsFor Sample.w3cDegreeRecord).
Proof.
  apply (derived_keys_prefixed
           (Sample.tagOptionsFor Sample.w3cDegreeRecord)). run.
Defined.

Lemma attribute_keys_collision_free_witness :
  attrValueKey "name::marker" ≠ attrMarkerKey "name" ∧
  "anonCredsSchemaId" ≠ attrValueKey "".
Proof.
  destruct attribute_keys_collision_free as (_ & _ & Hdistinct & Hfixed).
  split; [apply Hdistinct|]. apply Hfixed.
  unfold fixedTagKeys, requiredTagKeys. simpl.
  do 2 (apply elem_of_cons; right). by apply elem_of_cons; left.
Defined.

Lemma derived_tag_count_witness :
  size (Stored.derivedTags (Sample.tagOptionsFor Sample.w3cDegreeRecord)) = 16
  ∧ size (Stored.derivedTags Sample.webOptions) = 11.
Proof.
  split.
  - rewrite (derived_tag_count
               (Sample.tagOptionsFor Sample.w3cDegreeRecord)
               (Stored.derivedTags
                  (Sample.tagOptionsFor Sample.w3cDegreeRecord))) by run.
    run.
  - rewrite (derived_tag_count Sample.webOptions
               (Stored.derivedTags Sample.webOptions)) by run.
    run.
Defined.

Lemma derived_tags_project_back_witness :
  getAnonCredsTagsFromRecord Stored.degreeRecord
  = Some (Stored.derivedTags (Sample.tagOptionsFor Sample.w3cDegreeRecord)) ∧
  getAnoncredsCredentialInfoFromRecord
    (IsW3cCredentialRecord Stored.degreeRecord)
  = Return
      (derivedInfo (Sample.tagOptionsFor Sample.w3cDegreeRecord)
         Sample.degreeMetadata).
Proof.
  apply (derived_tags_project_back
           (Sample.tagOptionsFor Sample.w3cDegreeRecord)).
  - run.
  - by repeat split.
  - reflexivity.
  - intros k Hk. unfold Stored.degreeRecord.
    cbn [W3cCredentialRecord.getTags].
    rewrite !lookup_insert_ne; [done|by intros <-..].
  - run.
Defined.

Lemma deriver_identifier_error_first_witness :
  subjectOf Stored.mixedOptions
  = SubjectArray [Sample.aliceSubject; Sample.aliceSubject] ∧
  getW3cRecordAnonCredsTags Stored.mixedOptions
  = Throw (CredoError "not a valid did:indy did").
Proof.
  split; [reflexivity|].
  apply (deriver_identifier_error_first Stored.mixedOptions); [run|].
  exists [Sample.issuer], "did:web:example.org/definitions/degree",
    [Sample.degreeSchemaId; Sample.issuer].
  split; [reflexivity|]. split; [|run].
  repeat constructor. by eexists.
Defined.

Lemma array_subject_is_rejected_witness :
  getAnoncredsCredentialInfoFromRecord
    (IsW3cCredentialRecord Sample.w3cTwoSubjectRecord)
  = Throw MalformedCredentialSubject ∧
  getW3cRecordAnonCredsTags (Sample.tagOptionsFor Sample.w3cTwoSubjectRecord)
  = Throw MalformedCredentialSubject ∧
  ∃ e, firstUnqualifyError Stored.mixedOptions e ∧
       getW3cRecordAnonCredsTags Stored.mixedOptions = Throw e.
Proof.
  destruct (array_subject_is_rejected
              (Sample.tagOptionsFor Sample.w3cTwoSubjectRecord)
              [Sample.aliceSubject; Sample.aliceSubject] eq_refl)
    as (Hproject & _ & Hderive & _).
  split; [exact Hproject|]. split.
  - apply Hderive. intros _.
    split_and!; [by eexists..|intros ? ?; discriminate].
  - destruct (array_subject_is_rejected Stored.mixedOptions
                [Sample.aliceSubject; Sample.aliceSubject] eq_refl)
      as (_ & _ & _ & Hforeign).
    apply Hforeign. intros Hmirrorable.
    destruct (Hmirrorable eq_refl) as (_ & [u Hu] & _).
    vm_compute in Hu. discriminate.
Defined.

(** C6, as first stated, fails: the subject is an array, yet the deriver
    does not fail with [MalformedCredentialSubject] but with the error the
    helper throws on the credential-definition id, which is not an indy
    one. *)
Lemma array_subject_with_foreign_definition_id :
  subjectOf Stored.mixedOptions
  = SubjectArray [Sample.aliceSubject; Sample.aliceSubject] ∧
  getW3cRecordAnonCredsTags Stored.mixedOptions
  = Throw (CredoError "not a valid did:indy did") ∧
  getW3cRecordAnonCredsTags Stored.mixedOptions
  ≠ Throw MalformedCredentialSubject.
Proof. split; [reflexivity|]. split; [run|]. vm_compute. discriminate. Qed.

Lemma store_normalisation_passthrough_witness :
  ∃ options',
    getStoreCredentialOptions "uuid-2" Stored.legacyStoreOptions
      (Some "sovrin")
    = Return options' ∧
    StoreCredentialOptions.credentialId Stored.legacyStoreOptions
    = Some "given-by-caller" ∧
    StoreCredentialOptions.credentialId options' = Some "uuid-2".
Proof.
  eexists. split; [run|]. split; [reflexivity|].
  apply (store_normalisation_passthrough "uuid-2" Stored.legacyStoreOptions
           (Some "sovrin")).
  run.
Defined.

Lemma store_normalisation_rewrites_witness :
  ∃ options',
    getStoreCredentialOptions "uuid-2" Stored.legacyStoreOptions
      (Some "sovrin")
    = Return options' ∧
    Return (StoreCredentialOptions.credentialDefinitionId options')
    = Sample.qualify "XYZ:3:CL:7:default" (Some "sovrin").
Proof.
  eexists. split; [run|].
  destruct (store_normalisation_rewrites "uuid-2" Stored.legacyStoreOptions
              (Some "sovrin") _ eq_refl) as [Hrewritten _].
  symmetry. exact Hrewritten.
Defined.

Lemma store_normalisation_returns_iff_witness :
  returns
    (getStoreCredentialOptions "uuid-2" Stored.legacyStoreOptions None).
Proof.
  apply (store_normalisation_returns_iff "uuid-2" Stored.legacyStoreOptions
           None).
  split; [by eexists|]. split; [by eexists|]. split; [by eexists|].
  intros given Hgiven. discriminate.
Defined.

Lemma store_normalisation_fixpoint_witness :
  getStoreCredentialOptions "uuid-3" Sample.qualifiedStoreOptions None
  = Return (withCredentialId "uuid-3" Sample.qualifiedStoreOptions).
Proof.
  apply (store_normalisation_fixpoint "uuid-3" Sample.qualifiedStoreOptions
           None).
  - repeat split; try reflexivity. by intros ? [= <-].
  - by intros ? [= <-].
Defined.

End FurtherRuns.

(** ** The normalisation with helpers that insist on a namespace *)

Section StrictRuns.
#[local] Existing Instance Strict.imports.

(** C8, as first stated, fails: the credential-definition id, the schema,
    the credential definition and the revocation-registry id are all in
    qualified form, yet the normalisation does not return them: the
    definition of the revocation registry is a legacy one, no namespace is
    given, and the helper that rewrites it throws. *)
Lemma normalisation_throws_on_legacy_definition :
  qualifiedIds Strict.legacyDefinitionOptions ∧
  getStoreCredentialOptions "uuid-4" Strict.legacyDefinitionOptions None
  = Throw (CredoError "Missing required indy namespace") ∧
  ¬ returns
      (getStoreCredentialOptions "uuid-4" Strict.legacyDefinitionOptions None).
Proof.
  split.
  - repeat split; try reflexivity. by intros ? [= <-].
  - split; [vm_compute; reflexivity|]. intros [options' Hrun].
    vm_compute in Hrun. discriminate.
Qed.

End StrictRuns.
